(** * The test harness of Automatic_solver (src/test-harness.js)

    A shallow embedding of the [TestHarness] class: the JavaScript string
    primitives it calls, the diff generator, the child-process listener of
    [executeCode], the per-test wrapper [runSingleTest], the orchestrating
    loop of [runTests], [addTestCase] and [generateDiffReport].

    JavaScript strings are sequences of UTF-16 code units; here a string is
    a [string] whose characters are the code units 0..255 (Latin-1), which
    covers every literal of the source. *)

From Stdlib Require Import String Ascii List NArith Lia Bool DecimalString.
From stdpp Require Import gmap strings.

Local Open Scope string_scope.
Local Open Scope list_scope.
Local Open Scope stdpp_scope.

(** ** JavaScript string primitives used by the harness *)

Module JS.

(** ECMAScript WhiteSpace and LineTerminator code points below 256:
    TAB, LF, VT, FF, CR, SP and NBSP. *)
Definition isWhiteSpace (c : ascii) : bool :=
  match c with
  | "009" | "010" | "011" | "012" | "013" | " " | "160" => true
  | _ => false
  end%char.

(** [ToBoolean] on a string: only the empty string is falsy. *)
Definition truthy (s : string) : bool :=
  match s with
  | "" => false
  | String _ _ => true
  end.

(** [String.prototype.trimStart]. *)
Fixpoint trimStart (s : string) : string :=
  match s with
  | "" => ""
  | String c r => if isWhiteSpace c then trimStart r else s
  end.

(** [String.prototype.trimEnd]. *)
Fixpoint trimEnd (s : string) : string :=
  match s with
  | "" => ""
  | String c r =>
      match trimEnd r with
      | "" => if isWhiteSpace c then "" else String c ""
      | r' => String c r'
      end
  end.

(** [String.prototype.trim]. *)
Definition trim (s : string) : string := trimEnd (trimStart s).

Definition newline : ascii := "010"%char.

(** [s.split('\n')]: the result is never empty; [''.split('\n')] is
    [['']]. *)
Fixpoint split_newline (s : string) : list string :=
  match s with
  | "" => [""]
  | String c r =>
      if Ascii.eqb c newline then "" :: split_newline r
      else match split_newline r with
           | h :: t => String c h :: t
           | [] => [String c ""]
           end
  end.

(** [lines.join('\n')]. *)
Definition join_newline (lines : list string) : string :=
  String.concat (String newline "") lines.

(** [xs[i] || ''] on an array of strings: [undefined] (out of range) and
    the empty string both give the empty string. *)
Definition or_empty (x : option string) : string :=
  match x with
  | Some s => if truthy s then s else ""
  | None => ""
  end.

(** Template-literal rendering of a non-negative integer. *)
Definition of_nat (n : nat) : string :=
  NilEmpty.string_of_uint (Nat.to_uint n).

Definition of_N (n : N) : string :=
  NilEmpty.string_of_uint (N.to_uint n).

End JS.

(** ** The diff generator *)

(** One iteration of the [for] loop of [generateDiff]. *)
Definition diff_step (expectedLines actualLines : list string)
    (diff : list string) (i : nat) : list string :=
  let expectedLine := JS.or_empty (expectedLines !! i) in
  let actualLine := JS.or_empty (actualLines !! i) in
  if String.eqb expectedLine actualLine
  then diff ++ ["  " +:+ expectedLine]
  else (diff ++ ["- " +:+ expectedLine]) ++ ["+ " +:+ actualLine].

Definition generateDiff (expected actual : string) : string :=
  let expectedLines := JS.split_newline expected in
  let actualLines := JS.split_newline actual in
  let maxLines := Nat.max (length expectedLines) (length actualLines) in
  let diff :=
    fold_left (diff_step expectedLines actualLines) (seq 0 maxLines) [] in
  JS.join_newline diff.

(** The diff as the specification words it: pad, align by index, emit. *)
Module DiffSpec.

Definition pad (n : nat) (lines : list string) : list string :=
  lines ++ replicate (n - length lines) "".

Definition emit (p : string * string) : list string :=
  if String.eqb p.1 p.2 then ["  " +:+ p.1]
  else ["- " +:+ p.1; "+ " +:+ p.2].

Definition diff (expected actual : string) : string :=
  let e := JS.split_newline expected in
  let a := JS.split_newline actual in
  let n := Nat.max (length e) (length a) in
  JS.join_newline (flat_map emit (zip (pad n e) (pad n a))).

End DiffSpec.

(** ** Data model *)

Module TestCase.
Record t := mk { input : string; expected : string }.
End TestCase.

(** The parsed content of [test-cases.json]. *)
Module TestSuite.
Record t := mk { sample : TestCase.t; custom : list TestCase.t }.
End TestSuite.

(** The object returned by [runSingleTest]; [error] is [None] when the
    property is absent. *)
Module TestResult.
Record t := mk {
  testName : string;
  input : string;
  expected : string;
  actual : string;
  passed : bool;
  error : option string;
  executionTime : N
}.
End TestResult.

Module Summary.
Record t := mk { passed : nat; failed : nat; total : nat }.
End Summary.

(** The object returned by [runTests]. [timestamp] keeps the clock reading
    that [new Date().toISOString()] renders. *)
Module Results.
Record t := mk {
  problemId : string;
  language : string;
  timestamp : N;
  tests : list TestResult.t;
  summary : Summary.t
}.
End Results.

(** One element of [report.details]; [diff] and [error] are optional
    properties. *)
Module Detail.
Record t := mk {
  testName : string;
  passed : bool;
  input : string;
  expected : string;
  actual : string;
  diff : option string;
  error : option string
}.
End Detail.

Module Report.
Record t := mk {
  problemId : string;
  summary : Summary.t;
  details : list Detail.t
}.
End Report.

(** ** The host: child processes, the file system, the clock *)

(** The options object handed to [spawn], together with what the harness
    does to the child's stdin: [Some input] when it writes [input] and ends
    the stream, [None] when it leaves the stream untouched. *)
Record SpawnRequest := {
  command : string;
  args : list string;
  cwd : string;
  stdin : option string
}.

(** The events a [ChildProcess] emits to the listeners of [executeCode].
    The exit code of [close] is [None] for JavaScript [null] (the child was
    ended by a signal). *)
Inductive ChildEvent :=
  | stdout_data (chunk : string)
  | stderr_data (chunk : string)
  | close (code : option N)
  | error (message : string).

(** What a call of [spawn] does: it throws synchronously, or it returns a
    child that emits the listed events, each after the stated delay in
    milliseconds, and nothing after the last one. *)
Inductive Spawned :=
  | SpawnThrows (message : string)
  | Child (events : list (N * ChildEvent)).

(** Everything the harness asks of Node.js. [spawn n req] is the behaviour
    of the child started by the [n]-th call of [spawn]; [write_error p] is
    the message of the failure of [fs.writeFile] on [p], if it fails;
    [inherited_property k] is the rendering of [Object.prototype[k]] inside
    a template literal for the keys an object literal inherits
    ([constructor], [toString], ...), and [None] for every other key. *)
Record Host := {
  path_join : string -> string -> string;
  path_dirname : string -> string;
  path_basename : string -> string -> string;
  workspaceDir : string;
  spawn : nat -> SpawnRequest -> Spawned;
  write_error : string -> option string;
  inherited_property : string -> option string
}.

(** A file of the workspace: a suite that [JSON.parse] accepts, or text on
    which it throws the given message. *)
Inductive FileData :=
  | SuiteJson (suite : TestSuite.t)
  | NotJson (message : string).

(** The state the harness reads and changes: the files, the requests passed
    to [spawn] so far, and the wall clock in milliseconds. *)
Record World := {
  files : gmap string FileData;
  spawned : list SpawnRequest;
  clock : N
}.

(** ** Promises *)

(** How an awaited promise ends: it is fulfilled, it is rejected with an
    [Error] of the given message, or it is never settled. *)
Inductive Completion (A : Type) :=
  | Fulfilled (a : A)
  | Rejected (message : string)
  | Pending.
Arguments Fulfilled {A} a.
Arguments Rejected {A} message.
Arguments Pending {A}.

Definition Async (A : Type) : Type := World -> Completion A * World.

Definition ret {A} (a : A) : Async A := fun w => (Fulfilled a, w).

Definition throw {A} (message : string) : Async A :=
  fun w => (Rejected message, w).

Definition bind {A B} (m : Async A) (k : A -> Async B) : Async B :=
  fun w =>
    match m w with
    | (Fulfilled a, w') => k a w'
    | (Rejected message, w') => (Rejected message, w')
    | (Pending, w') => (Pending, w')
    end.

(** [try { body } catch (err) { handler(err.message) }]. *)
Definition try_catch {A} (body : Async A) (handler : string -> Async A)
    : Async A :=
  fun w =>
    match body w with
    | (Fulfilled a, w') => (Fulfilled a, w')
    | (Rejected message, w') => handler message w'
    | (Pending, w') => (Pending, w')
    end.

Notation "x <- m ;; k" := (bind m (fun x => k))
  (at level 100, m at next level, right associativity).

(** [Date.now()]. *)
Definition date_now : Async N := fun w => (Fulfilled (clock w), w).

(** [JSON.parse(await fs.readFile(path, 'utf8'))]. *)
Definition readSuite (path : string) : Async TestSuite.t :=
  fun w =>
    match files w !! path with
    | Some (SuiteJson suite) => (Fulfilled suite, w)
    | Some (NotJson message) => (Rejected message, w)
    | None =>
        (Rejected ("ENOENT: no such file or directory, open '" +:+ path +:+ "'"), w)
    end.

(** [await fs.writeFile(path, JSON.stringify(suite, null, 2))]. *)
Definition writeSuite (write_error : string -> option string)
    (path : string) (suite : TestSuite.t) : Async unit :=
  fun w =>
    match write_error path with
    | Some message => (Rejected message, w)
    | None =>
        (Fulfilled tt,
         {| files := <[path := SuiteJson suite]> (files w);
            spawned := spawned w;
            clock := clock w |})
    end.

(** ** The listeners of [executeCode] *)

(** The variables the listeners close over, the state of the promise they
    settle, and the time waited for the child while the promise was not
    settled. *)
Record Listener := {
  output : string;
  stderr : string;
  settled : Completion string;
  elapsed : N
}.

(** [resolve] and [reject] act on a promise that is not settled yet and are
    ignored afterwards. *)
Definition settle (current next : Completion string) : Completion string :=
  match current with
  | Pending => next
  | _ => current
  end.

(** Template-literal rendering of the exit code. *)
Definition render_code (code : option N) : string :=
  match code with
  | Some n => JS.of_N n
  | None => "null"
  end.

(** [code !== 0]. *)
Definition code_nonzero (code : option N) : bool :=
  match code with
  | Some 0%N => false
  | _ => true
  end.

Definition on_event (st : Listener) (ev : N * ChildEvent) : Listener :=
  let waited :=
    match settled st with
    | Pending => (elapsed st + ev.1)%N
    | _ => elapsed st
    end in
  match ev.2 with
  | stdout_data data =>
      {| output := output st +:+ data; stderr := stderr st;
         settled := settled st; elapsed := waited |}
  | stderr_data data =>
      {| output := output st; stderr := stderr st +:+ data;
         settled := settled st; elapsed := waited |}
  | close code =>
      {| output := output st; stderr := stderr st;
         settled :=
           settle (settled st)
             (if code_nonzero code
              then Rejected ("Execution failed with code " +:+ render_code code
                             +:+ ": " +:+ stderr st)
              else Fulfilled (output st));
         elapsed := waited |}
  | error message =>
      {| output := output st; stderr := stderr st;
         settled :=
           settle (settled st)
             (Rejected ("Failed to start process: " +:+ message));
         elapsed := waited |}
  end.

Definition listen (events : list (N * ChildEvent)) : Listener :=
  fold_left on_event events
    {| output := ""; stderr := ""; settled := Pending; elapsed := 0 |}.

(** ** The harness *)

Section Harness.

Variable host : Host.

(** The [extensions] table with its fallback, [extensions[language] || 'js']. *)
Definition extension (language : string) : string :=
  if String.eqb language "javascript" then "js"
  else if String.eqb language "python" then "py"
  else if String.eqb language "java" then "java"
  else if String.eqb language "cpp" then "cpp"
  else match inherited_property host language with
       | Some rendered => rendered
       | None => "js"
       end.

Definition getSolutionFile (problemDir language : string) : string :=
  path_join host problemDir ("solution." +:+ extension language).

(** The [switch] of [executeCode]: the command and its arguments, or
    [None] in the [default] case. *)
Definition launch (solutionFile language : string)
    : option (string * list string) :=
  if String.eqb language "javascript" then Some ("node", [solutionFile])
  else if String.eqb language "python" then Some ("python", [solutionFile])
  else if String.eqb language "java" then
    let className := path_basename host solutionFile ".java" in
    Some ("java", [className])
  else if String.eqb language "cpp" then
    let executable :=
      path_join host (path_dirname host solutionFile) "solution" in
    Some (executable, [])
  else None.

Definition executeCode (solutionFile language input : string)
    : Async string :=
  fun w =>
    match launch solutionFile language with
    | None => (Rejected ("Unsupported language: " +:+ language), w)
    | Some (command, args) =>
        let request :=
          {| command := command; args := args;
             cwd := path_dirname host solutionFile;
             stdin := if JS.truthy input then Some input else None |} in
        let started (waited : N) :=
          {| files := files w;
             spawned := spawned w ++ [request];
             clock := (clock w + waited)%N |} in
        match spawn host (length (spawned w)) request with
        | SpawnThrows message => (Rejected message, started 0%N)
        | Child events =>
            let st := listen events in
            (settled st, started (elapsed st))
        end
    end.

Definition compareOutput (actual expected : string) : bool :=
  String.eqb actual expected.

Definition runSingleTest
    (problemDir language input expected testName : string)
    : Async TestResult.t :=
  let solutionFile := getSolutionFile problemDir language in
  try_catch
    (output <- executeCode solutionFile language input ;;
     let passed := compareOutput (JS.trim output) (JS.trim expected) in
     now <- date_now ;;
     ret {| TestResult.testName := testName;
            TestResult.input := input;
            TestResult.expected := expected;
            TestResult.actual := JS.trim output;
            TestResult.passed := passed;
            TestResult.error := None;
            TestResult.executionTime := now |})
    (fun message =>
       now <- date_now ;;
       ret {| TestResult.testName := testName;
              TestResult.input := input;
              TestResult.expected := expected;
              TestResult.actual := "";
              TestResult.passed := false;
              TestResult.error := Some message;
              TestResult.executionTime := now |}).

(** [results.tests.push(r); results.summary.total++; if (r.passed)
    results.summary.passed++; else results.summary.failed++]. *)
Definition record_result (results : Results.t) (r : TestResult.t)
    : Results.t :=
  let s := Results.summary results in
  {| Results.problemId := Results.problemId results;
     Results.language := Results.language results;
     Results.timestamp := Results.timestamp results;
     Results.tests := Results.tests results ++ [r];
     Results.summary :=
       {| Summary.passed :=
            if TestResult.passed r then S (Summary.passed s)
            else Summary.passed s;
          Summary.failed :=
            if TestResult.passed r then Summary.failed s
            else S (Summary.failed s);
          Summary.total := S (Summary.total s) |} |}.

(** The [for] loop over [testCases.custom], entered at index [i] with the
    cases from [i] on still to run. *)
Fixpoint run_custom (problemDir language : string)
    (rest : list TestCase.t) (i : nat) (results : Results.t)
    : Async Results.t :=
  match rest with
  | [] => ret results
  | testCase :: rest' =>
      customResult <-
        runSingleTest problemDir language
          (TestCase.input testCase) (TestCase.expected testCase)
          ("custom-" +:+ JS.of_nat i) ;;
      run_custom problemDir language rest' (S i)
        (record_result results customResult)
  end.

Definition runTests (problemId language : string) : Async Results.t :=
  try_catch
    (let problemDir := path_join host (workspaceDir host) problemId in
     let testCasesPath := path_join host problemDir "test-cases.json" in
     testCases <- readSuite testCasesPath ;;
     timestamp <- date_now ;;
     let results :=
       {| Results.problemId := problemId;
          Results.language := language;
          Results.timestamp := timestamp;
          Results.tests := [];
          Results.summary :=
            {| Summary.passed := 0; Summary.failed := 0;
               Summary.total := 0 |} |} in
     results <-
       (if JS.truthy (TestCase.input (TestSuite.sample testCases)) then
          sampleResult <-
            runSingleTest problemDir language
              (TestCase.input (TestSuite.sample testCases))
              (TestCase.expected (TestSuite.sample testCases))
              "sample" ;;
          ret (record_result results sampleResult)
        else ret results) ;;
     run_custom problemDir language (TestSuite.custom testCases) 0 results)
    (fun message => throw ("Test execution failed: " +:+ message)).

Definition addTestCase (problemId input expected : string)
    : Async TestSuite.t :=
  let problemDir := path_join host (workspaceDir host) problemId in
  let testCasesPath := path_join host problemDir "test-cases.json" in
  try_catch
    (testCases <- readSuite testCasesPath ;;
     let testCases :=
       {| TestSuite.sample := TestSuite.sample testCases;
          TestSuite.custom :=
            TestSuite.custom testCases
            ++ [{| TestCase.input := input;
                   TestCase.expected := expected |}] |} in
     _ <- writeSuite (write_error host) testCasesPath testCases ;;
     ret testCases)
    (fun message => throw ("Failed to add test case: " +:+ message)).

End Harness.

(** [if (test.error) detail.error = test.error]: the property is copied
    when it is present and not the empty string. *)
Definition copy_error (e : option string) : option string :=
  match e with
  | Some message => if JS.truthy message then Some message else None
  | None => None
  end.

Definition detail_of (test : TestResult.t) : Detail.t :=
  {| Detail.testName := TestResult.testName test;
     Detail.passed := TestResult.passed test;
     Detail.input := TestResult.input test;
     Detail.expected := TestResult.expected test;
     Detail.actual := TestResult.actual test;
     Detail.diff :=
       if negb (TestResult.passed test)
       then Some (generateDiff (TestResult.expected test)
                    (TestResult.actual test))
       else None;
     Detail.error := copy_error (TestResult.error test) |}.

Definition generateDiffReport (testResults : Results.t) : Report.t :=
  {| Report.problemId := Results.problemId testResults;
     Report.summary := Results.summary testResults;
     Report.details := map detail_of (Results.tests testResults) |}.

(** ** Auxiliary notions used in the statements *)

(** Whether a string contains a newline. *)
Fixpoint has_newline (s : string) : bool :=
  match s with
  | "" => false
  | String c r => Ascii.eqb c JS.newline || has_newline r
  end.

(** The pair of lines the loop of [generateDiff] compares at index [i]. *)
Definition aligned (expectedLines actualLines : list string) (i : nat)
    : string * string :=
  (JS.or_empty (expectedLines !! i), JS.or_empty (actualLines !! i)).

(** Whether every character of a string is white space. *)
Fixpoint all_whitespace (s : string) : bool :=
  match s with
  | "" => true
  | String c r => JS.isWhiteSpace c && all_whitespace r
  end.

Definition starts_with_whitespace (s : string) : bool :=
  match s with
  | "" => false
  | String c _ => JS.isWhiteSpace c
  end.

Fixpoint ends_with_whitespace (s : string) : bool :=
  match s with
  | "" => false
  | String c r =>
      match r with
      | "" => JS.isWhiteSpace c
      | String _ _ => ends_with_whitespace r
      end
  end.

(** [t] is [s] without its leading and trailing white space: [s] is [t]
    between two runs of white space, and [t] neither starts nor ends with
    white space. Nothing inside [t] is touched. *)
Definition Trimmed (s t : string) : Prop :=
  exists leading trailing : string,
    s = leading +:+ t +:+ trailing
    /\ all_whitespace leading = true
    /\ all_whitespace trailing = true
    /\ starts_with_whitespace t = false
    /\ ends_with_whitespace t = false.

(** An event that settles the promise of [executeCode]. *)
Definition is_final (ev : ChildEvent) : bool :=
  match ev with
  | close _ | error _ => true
  | _ => false
  end.

Definition not_final (ev : N * ChildEvent) : Prop := is_final ev.2 = false.

(** What the child wrote to its standard output during the events. *)
Fixpoint stdout_of (events : list (N * ChildEvent)) : string :=
  match events with
  | [] => ""
  | (_, stdout_data data) :: rest => data +:+ stdout_of rest
  | _ :: rest => stdout_of rest
  end.

Fixpoint stderr_of (events : list (N * ChildEvent)) : string :=
  match events with
  | [] => ""
  | (_, stderr_data data) :: rest => data +:+ stderr_of rest
  | _ :: rest => stderr_of rest
  end.

(** The time the events take, in milliseconds. *)
Fixpoint delay_of (events : list (N * ChildEvent)) : N :=
  match events with
  | [] => 0
  | ev :: rest => ev.1 + delay_of rest
  end.

(** The time after which the child closes, if it ever does. *)
Fixpoint exit_time (events : list (N * ChildEvent)) : option N :=
  match events with
  | [] => None
  | (delay, close _) :: _ => Some delay
  | (delay, _) :: rest => N.add delay <$> exit_time rest
  end.



(** The languages with a [case] in the [switch] of [executeCode]. *)
Definition supported (language : string) : bool :=
  String.eqb language "javascript" || String.eqb language "python"
  || String.eqb language "java" || String.eqb language "cpp".

(** The test cases of a suite in the order of a run, with their names:
    the sample when its input is not empty, then the custom cases. *)
Fixpoint custom_from (i : nat) (cases : list TestCase.t)
    : list (string * TestCase.t) :=
  match cases with
  | [] => []
  | c :: rest => ("custom-" +:+ JS.of_nat i, c) :: custom_from (S i) rest
  end.

Definition named_cases (suite : TestSuite.t) : list (string * TestCase.t) :=
  (if JS.truthy (TestCase.input (TestSuite.sample suite))
   then [("sample", TestSuite.sample suite)] else [])
  ++ custom_from 0 (TestSuite.custom suite).

(** The result [r] reports the named case [c]. *)
Definition reports (c : string * TestCase.t) (r : TestResult.t) : Prop :=
  TestResult.testName r = c.1
  /\ TestResult.input r = TestCase.input c.2
  /\ TestResult.expected r = TestCase.expected c.2.

(** How a result is judged: with an error it fails and has no output,
    without one it passes exactly when the output equals the trimmed
    expected text. *)
Definition judged (r : TestResult.t) : Prop :=
  match TestResult.error r with
  | Some _ => TestResult.passed r = false /\ TestResult.actual r = ""
  | None =>
      TestResult.passed r
      = String.eqb (TestResult.actual r) (JS.trim (TestResult.expected r))
  end.

(** The counters of a summary agree with a list of verdicts. *)
Definition tallies (s : Summary.t) (verdicts : list bool) : Prop :=
  Summary.total s = length verdicts
  /\ Summary.passed s = length (filter (fun b => b = true) verdicts)
  /\ Summary.failed s = length (filter (fun b => b = false) verdicts).

(** The path of the suite of a problem. *)
Definition suite_path (host : Host) (problemId : string) : string :=
  path_join host (path_join host (workspaceDir host) problemId)
    "test-cases.json".

(** The request [executeCode] passes to [spawn]. *)
Definition request_for (host : Host) (solutionFile input : string)
    (command : string) (args : list string) : SpawnRequest :=
  {| command := command; args := args;
     cwd := path_dirname host solutionFile;
     stdin := if JS.truthy input then Some input else None |}.

(** The summary of a result object counts the verdicts of its tests. *)
Definition consistent (results : Results.t) : Prop :=
  tallies (Results.summary results)
    (map TestResult.passed (Results.tests results)).


(** The execution of one test fails: the language has no [case], or
    [spawn] throws, or the first event that settles the promise is an
    [error] event or a [close] event with an exit code other than [0]. The
    events before it may carry output. *)
Definition execution_fails (host : Host) (w : World)
    (solutionFile language input : string) : Prop :=
  launch host solutionFile language = None
  \/ exists command args,
       launch host solutionFile language = Some (command, args)
       /\ let request := request_for host solutionFile input command args in
          (exists message,
             spawn host (length (spawned w)) request = SpawnThrows message)
          \/ (exists pre delay ev post,
                spawn host (length (spawned w)) request
                = Child (pre ++ (delay, ev) :: post)
                /\ Forall not_final pre
                /\ ((exists message, ev = error message)
                    \/ (exists code,
                          ev = close code /\ code_nonzero code = true))).

(** The handler of [POST /api/problems/:id/test] in [src/index.js]: it
    answers with the report of the run, or with the message of the error. *)
Definition test_route (host : Host) (problemId language : string)
    : Async Report.t :=
  results <- runTests host problemId language ;;
  ret (generateDiffReport results).

(** ** A host for the examples *)

(** [path] on normalized POSIX paths. *)
Module Posix.

Definition join (dir name : string) : string := dir +:+ "/" +:+ name.

(** The path cut at its last slash. *)
Fixpoint cut (p : string) : option (string * string) :=
  match p with
  | "" => None
  | String c r =>
      match cut r with
      | Some (dir, base) => Some (String c dir, base)
      | None => if Ascii.eqb c "/" then Some ("", r) else None
      end
  end.

Definition dirname (p : string) : string :=
  match cut p with
  | Some (dir, _) => dir
  | None => "."
  end.

Fixpoint drop_suffix (ext s : string) : string :=
  match s with
  | "" => ""
  | String c r => if String.eqb s ext then "" else String c (drop_suffix ext r)
  end.

Definition basename (p ext : string) : string :=
  match cut p with
  | Some (_, base) => drop_suffix ext base
  | None => drop_suffix ext p
  end.

End Posix.

Definition node_host (children : nat -> SpawnRequest -> Spawned) : Host :=
  {| path_join := Posix.join;
     path_dirname := Posix.dirname;
     path_basename := Posix.basename;
     workspaceDir := "/srv/app/workspace";
     spawn := children;
     write_error := fun _ => None;
     inherited_property :=
       fun key =>
         if String.eqb key "constructor"
         then Some "function Object() { [native code] }"
         else None |}.

Definition nl : string := String JS.newline "".

Definition two_sum_suite : TestSuite.t :=
  {| TestSuite.sample :=
       {| TestCase.input := "2 7 11 15" +:+ nl +:+ "9";
          TestCase.expected := "0 1" |};
     TestSuite.custom :=
       [{| TestCase.input := "3 3" +:+ nl +:+ "6";
           TestCase.expected := "0 1" |}] |}.

Definition two_sum_dir : string := "/srv/app/workspace/two-sum".

Definition two_sum_world : World :=
  {| files :=
       {[ "/srv/app/workspace/two-sum/test-cases.json"
          := SuiteJson two_sum_suite ]};
     spawned := [];
     clock := 1000 |}.

(** A child that prints the expected answer and exits with code 0. *)
Definition good_child : Spawned :=
  Child [(5%N, stdout_data ("0 1" +:+ nl)); (1%N, close (Some 0%N))].

(** A child that prints the expected answer at once and exits with code 0
    an hour later. *)
Definition slow_events : list (N * ChildEvent) :=
  [(5%N, stdout_data ("0 1" +:+ nl)); (3600000%N, close (Some 0%N))].


(** A child that prints part of an answer, complains and exits with
    code 1. *)
Definition crashing_events : list (N * ChildEvent) :=
  [(3%N, stdout_data "0"); (1%N, stderr_data "boom"); (2%N, close (Some 1%N))].

(** The first child behaves as given, the later ones are good. *)
Definition first_child (first : Spawned) (n : nat) (_ : SpawnRequest)
    : Spawned :=
  match n with
  | 0 => first
  | S _ => good_child
  end.

(** The report of the two-sum run whose first child crashes. *)
Definition crash_report : Report.t :=
  {| Report.problemId := "two-sum";
     Report.summary :=
       {| Summary.passed := 1; Summary.failed := 1; Summary.total := 2 |};
     Report.details :=
       [{| Detail.testName := "sample"; Detail.passed := false;
           Detail.input := "2 7 11 15" +:+ nl +:+ "9";
           Detail.expected := "0 1"; Detail.actual := "";
           Detail.diff := Some ("- 0 1" +:+ nl +:+ "+ ");
           Detail.error := Some "Execution failed with code 1: boom" |};
        {| Detail.testName := "custom-0"; Detail.passed := true;
           Detail.input := "3 3" +:+ nl +:+ "6";
           Detail.expected := "0 1"; Detail.actual := "0 1";
           Detail.diff := None; Detail.error := None |}] |}.

(** The result of a test whose language has no [case] in [executeCode]. *)
Definition unsupported_result (language : string) (r : TestResult.t) : Prop :=
  TestResult.passed r = false
  /\ TestResult.actual r = ""
  /\ TestResult.error r = Some ("Unsupported language: " +:+ language).

(** The suite after [testCases.custom.push({ input, expected })]. *)
Definition with_case (suite : TestSuite.t) (input expected : string)
    : TestSuite.t :=
  {| TestSuite.sample := TestSuite.sample suite;
     TestSuite.custom :=
       TestSuite.custom suite
       ++ [{| TestCase.input := input; TestCase.expected := expected |}] |}.




(** ** Further notions *)

(** The lines [generateDiff] collects in [diff] before it joins them. *)
Definition diff_lines (expected actual : string) : list string :=
  let expectedLines := JS.split_newline expected in
  let actualLines := JS.split_newline actual in
  let maxLines := Nat.max (length expectedLines) (length actualLines) in
  fold_left (diff_step expectedLines actualLines) (seq 0 maxLines) [].

(** A line of a diff that shows an expected line the output does not
    have at that index. *)
Definition removed_line (line : string) : Prop :=
  exists text, line = "- " +:+ text.

(** [k] newlines. *)
Fixpoint newlines (k : nat) : string :=
  match k with
  | 0 => ""
  | S k' => String JS.newline (newlines k')
  end.



(** The verdict of a completed test. *)
Definition verdict_of (c : Completion TestResult.t) : option bool :=
  match c with
  | Fulfilled r => Some (TestResult.passed r)
  | _ => None
  end.

(** A suite whose sample has no input and that has no custom case. *)
Definition blank_suite : TestSuite.t :=
  {| TestSuite.sample :=
       {| TestCase.input := ""; TestCase.expected := "anything" |};
     TestSuite.custom := [] |}.

Definition blank_world : World :=
  {| files :=
       {[ "/srv/app/workspace/new-problem/test-cases.json"
          := SuiteJson blank_suite ]};
     spawned := [];
     clock := 1000 |}.

(** A world whose suite file of two-sum is not JSON. *)
Definition broken_world : World :=
  {| files :=
       {[ "/srv/app/workspace/two-sum/test-cases.json"
          := NotJson "Unexpected end of JSON input" ]};
     spawned := [];
     clock := 1000 |}.

(** A child that cannot be started: an [error] event, then [close]. *)
Definition missing_binary_events : list (N * ChildEvent) :=
  [(1%N, error "spawn node ENOENT"); (0%N, close (Some 254%N))].


(** The report of the two-sum run whose children are all good. *)
Definition two_sum_good_report : Report.t :=
  {| Report.problemId := "two-sum";
     Report.summary :=
       {| Summary.passed := 2; Summary.failed := 0; Summary.total := 2 |};
     Report.details :=
       [{| Detail.testName := "sample"; Detail.passed := true;
           Detail.input := "2 7 11 15" +:+ nl +:+ "9";
           Detail.expected := "0 1"; Detail.actual := "0 1";
           Detail.diff := None; Detail.error := None |};
        {| Detail.testName := "custom-0"; Detail.passed := true;
           Detail.input := "3 3" +:+ nl +:+ "6";
           Detail.expected := "0 1"; Detail.actual := "0 1";
           Detail.diff := None; Detail.error := None |}] |}.

(** * Properties *)

(** ** Strings *)

Lemma app_nil_l_str (s : string) : "" +:+ s = s.
Proof. reflexivity. Qed.

Lemma app_cons_str (c : ascii) (s t : string) :
  String c s +:+ t = String c (s +:+ t).
Proof. reflexivity. Qed.

Lemma app_nil_r_str (s : string) : s +:+ "" = s.
Proof.
  induction s as [|c s IH]; [reflexivity|].
  rewrite app_cons_str, IH. reflexivity.
Qed.

Lemma app_assoc_str (s t u : string) : (s +:+ t) +:+ u = s +:+ (t +:+ u).
Proof.
  induction s as [|c s IH]; [reflexivity|].
  rewrite !app_cons_str, IH. reflexivity.
Qed.

(** ** [split] and [join] *)

Lemma split_newline_nonempty (s : string) : JS.split_newline s <> [].
Proof.
  induction s as [|c s IH]; simpl; [discriminate|].
  destruct (Ascii.eqb c JS.newline); [discriminate|].
  destruct (JS.split_newline s); discriminate.
Qed.

(** Joining the lines of a string gives the string back. *)
Lemma join_split_newline (s : string) :
  JS.join_newline (JS.split_newline s) = s.
Proof.
  unfold JS.join_newline.
  induction s as [|c s IH]; simpl; [reflexivity|].
  destruct (Ascii.eqb_spec c JS.newline) as [->|Hc].
  - destruct (JS.split_newline s) as [|h t] eqn:E.
    + exfalso. eapply split_newline_nonempty, E.
    + cbn [String.concat].
      rewrite app_nil_l_str, app_cons_str, app_nil_l_str. f_equal. exact IH.
  - destruct (JS.split_newline s) as [|h t] eqn:E.
    + exfalso. eapply split_newline_nonempty, E.
    + destruct t as [|h' t]; cbn [String.concat] in *.
      * f_equal. exact IH.
      * rewrite app_cons_str. f_equal. exact IH.
Qed.

(** No line of a split string contains a newline. *)
Lemma split_newline_lines (s : string) :
  Forall (fun line => has_newline line = false) (JS.split_newline s).
Proof.
  induction s as [|c s IH]; simpl.
  - repeat constructor.
  - destruct (Ascii.eqb c JS.newline) eqn:Hc.
    + constructor; [reflexivity | exact IH].
    + destruct (JS.split_newline s) as [|h t].
      * repeat constructor. simpl. rewrite Hc. reflexivity.
      * inversion IH as [|? ? Hh Ht]; subst.
        constructor; [|exact Ht]. simpl. rewrite Hc. exact Hh.
Qed.

(** ** The diff generator *)

Lemma diff_step_emit (e a diff : list string) (i : nat) :
  diff_step e a diff i = diff ++ DiffSpec.emit (aligned e a i).
Proof.
  unfold diff_step, DiffSpec.emit, aligned. simpl.
  destruct (String.eqb _ _); [reflexivity|].
  rewrite <- app_assoc. reflexivity.
Qed.

Lemma diff_loop_flat_map (e a : list string) (indices : list nat)
    (diff : list string) :
  fold_left (diff_step e a) indices diff
  = diff ++ flat_map (fun i => DiffSpec.emit (aligned e a i)) indices.
Proof.
  revert diff.
  induction indices as [|i indices IH]; intros diff; simpl.
  - rewrite app_nil_r. reflexivity.
  - rewrite IH, diff_step_emit, <- app_assoc. reflexivity.
Qed.

Lemma pad_lookup (n : nat) (lines : list string) (i : nat) :
  length lines <= n -> i < n ->
  DiffSpec.pad n lines !! i = Some (JS.or_empty (lines !! i)).
Proof.
  intros Hn Hi. unfold DiffSpec.pad.
  destruct (lines !! i) as [line|] eqn:E.
  - rewrite lookup_app_l by (eapply lookup_lt_Some; exact E).
    rewrite E. simpl. destruct line; reflexivity.
  - apply lookup_ge_None in E.
    rewrite lookup_app_r by exact E.
    simpl. apply lookup_replicate_2. lia.
Qed.

Lemma pad_length (n : nat) (lines : list string) :
  length lines <= n -> length (DiffSpec.pad n lines) = n.
Proof.
  intros Hn. unfold DiffSpec.pad.
  rewrite length_app, length_replicate. lia.
Qed.

Lemma aligned_zip_pad (n : nat) (e a : list string) :
  length e <= n -> length a <= n ->
  map (aligned e a) (seq 0 n) = zip (DiffSpec.pad n e) (DiffSpec.pad n a).
Proof.
  intros He Ha. apply list_eq. intros i.
  rewrite list_lookup_fmap, lookup_zip_with.
  destruct (decide (i < n)) as [Hi|Hi].
  - rewrite lookup_seq_lt by exact Hi.
    rewrite !pad_lookup by assumption. reflexivity.
  - rewrite lookup_seq_ge by lia.
    rewrite (lookup_ge_None_2 (DiffSpec.pad n e))
      by (rewrite pad_length by exact He; lia).
    reflexivity.
Qed.

Example generateDiff_two_sum :
  generateDiff "0 1" "0 2" = "- 0 1" +:+ nl +:+ "+ 0 2".
Proof. reflexivity. Qed.

Example generateDiff_pads_the_shorter :
  generateDiff ("a" +:+ nl +:+ "b" +:+ nl +:+ "c") ("a" +:+ nl +:+ "x")
  = "  a" +:+ nl +:+ "- b" +:+ nl +:+ "+ x" +:+ nl +:+ "- c" +:+ nl +:+ "+ ".
Proof. reflexivity. Qed.

(** [C8]: [generateDiff] splits both strings on newline, pads the shorter
    sequence of lines with empty strings up to the longer length, emits for
    each index two spaces and the line when the two lines are identical and
    otherwise a minus line for the expected line followed by a plus line
    for the actual line, and joins what it emitted with newlines in index
    order; the lines of a string are its pieces between newlines: they
    hold no newline, and joined with newlines they give the string back. *)
Theorem generateDiff_index_aligned (expected actual : string) :
  generateDiff expected actual = DiffSpec.diff expected actual
  /\ (forall s : string,
        JS.join_newline (JS.split_newline s) = s
        /\ Forall (fun line => has_newline line = false) (JS.split_newline s)).
Proof.
  split; [|intros s; split;
           [apply join_split_newline | apply split_newline_lines]].
  unfold generateDiff, DiffSpec.diff.
  rewrite diff_loop_flat_map. simpl. f_equal.
  rewrite <- aligned_zip_pad by lia.
  generalize (seq 0 (length (JS.split_newline expected)
                     `max` length (JS.split_newline actual))).
  intros indices. induction indices as [|i indices IH]; simpl; congruence.
Qed.

(** ** Trimming *)

Lemma trimStart_all_whitespace (s : string) :
  all_whitespace s = true -> JS.trimStart s = "".
Proof.
  induction s as [|c s IH]; simpl; [reflexivity|].
  intros [Hc Hs]%andb_prop. rewrite Hc. auto.
Qed.

Lemma trimEnd_all_whitespace (s : string) :
  all_whitespace s = true -> JS.trimEnd s = "".
Proof.
  induction s as [|c s IH]; simpl; [reflexivity|].
  intros [Hc Hs]%andb_prop. rewrite (IH Hs), Hc. reflexivity.
Qed.

Lemma trimStart_leading (leading s : string) :
  all_whitespace leading = true ->
  JS.trimStart (leading +:+ s) = JS.trimStart s.
Proof.
  induction leading as [|c l IH]; [reflexivity|].
  rewrite app_cons_str. simpl. intros [Hc Hl]%andb_prop.
  rewrite Hc. auto.
Qed.

Lemma trimStart_fixed (s : string) :
  starts_with_whitespace s = false -> JS.trimStart s = s.
Proof. destruct s as [|c s]; simpl; [reflexivity|]. intros ->. reflexivity. Qed.

Lemma trimEnd_trailing (s trailing : string) :
  all_whitespace trailing = true ->
  JS.trimEnd (s +:+ trailing) = JS.trimEnd s.
Proof.
  intros Ht. induction s as [|c s IH].
  - rewrite app_nil_l_str. apply trimEnd_all_whitespace, Ht.
  - rewrite app_cons_str. simpl. rewrite IH. reflexivity.
Qed.

Lemma trimEnd_fixed (s : string) :
  ends_with_whitespace s = false -> JS.trimEnd s = s.
Proof.
  induction s as [|c s IH]; [reflexivity|].
  destruct s as [|c' s'].
  - simpl. intros ->. reflexivity.
  - intros H. change (ends_with_whitespace (String c' s') = false) in H.
    change (JS.trimEnd (String c (String c' s')))
      with (match JS.trimEnd (String c' s') with
            | "" => if JS.isWhiteSpace c then "" else String c ""
            | r' => String c r'
            end).
    rewrite (IH H). reflexivity.
Qed.

Lemma trimStart_split (s : string) :
  exists leading,
    s = leading +:+ JS.trimStart s
    /\ all_whitespace leading = true
    /\ starts_with_whitespace (JS.trimStart s) = false.
Proof.
  induction s as [|c s (l & Hs & Hl & Hst)].
  - exists "". auto.
  - simpl. destruct (JS.isWhiteSpace c) eqn:Hc.
    + exists (String c l). rewrite app_cons_str, <- Hs. simpl.
      rewrite Hc, Hl. auto.
    + exists "". simpl. auto.
Qed.

Lemma trimEnd_split (s : string) :
  exists trailing,
    s = JS.trimEnd s +:+ trailing
    /\ all_whitespace trailing = true
    /\ ends_with_whitespace (JS.trimEnd s) = false.
Proof.
  induction s as [|c s (t & Hs & Ht & Hen)].
  - exists "". auto.
  - simpl. destruct (JS.trimEnd s) as [|c' r'] eqn:E.
    + rewrite app_nil_l_str in Hs. subst t.
      destruct (JS.isWhiteSpace c) eqn:Hc.
      * exists (String c s). simpl. rewrite Hc, Ht. auto.
      * exists s. simpl. rewrite Hc. auto.
    + exists t. rewrite app_cons_str, <- Hs. auto.
Qed.

Lemma trimEnd_keeps_start (s : string) :
  starts_with_whitespace s = false ->
  starts_with_whitespace (JS.trimEnd s) = false.
Proof.
  destruct s as [|c s]; simpl; [reflexivity|].
  intros Hc. destruct (JS.trimEnd s); [rewrite Hc|]; simpl; auto.
Qed.

(** [trim] removes the leading and the trailing white space. *)
Lemma trim_Trimmed (s : string) : Trimmed s (JS.trim s).
Proof.
  unfold JS.trim.
  destruct (trimStart_split s) as (l & Hs & Hl & Hst).
  destruct (trimEnd_split (JS.trimStart s)) as (t & Hs' & Ht & Hen).
  exists l, t. repeat split; auto.
  - rewrite <- Hs', <- Hs. reflexivity.
  - apply trimEnd_keeps_start, Hst.
Qed.

(** and it is the only string that does. *)
Lemma Trimmed_trim (s t : string) : Trimmed s t -> JS.trim s = t.
Proof.
  intros (l & r & -> & Hl & Hr & Hst & Hen). unfold JS.trim.
  rewrite trimStart_leading by exact Hl.
  destruct t as [|c t].
  - rewrite app_nil_l_str, (trimStart_all_whitespace r Hr). reflexivity.
  - rewrite trimStart_fixed
      by (rewrite app_cons_str; exact Hst).
    rewrite trimEnd_trailing by exact Hr.
    apply trimEnd_fixed, Hen.
Qed.

(** ** The listeners *)

Lemma listen_not_final (pre : list (N * ChildEvent)) (st : Listener) :
  Forall not_final pre ->
  settled st = Pending ->
  fold_left on_event pre st
  = {| output := output st +:+ stdout_of pre;
       stderr := stderr st +:+ stderr_of pre;
       settled := Pending;
       elapsed := elapsed st + delay_of pre |}.
Proof.
  intros Hpre. revert st.
  induction Hpre as [|[d e] pre He _ IH]; intros st Hst.
  - destruct st; simpl in *. subst.
    rewrite !app_nil_r_str, N.add_0_r. reflexivity.
  - unfold not_final in He.
    destruct e; simpl in He; try discriminate; simpl fold_left;
      rewrite IH by (unfold on_event; simpl; exact Hst);
      unfold on_event; simpl; rewrite Hst, ?app_assoc_str, N.add_assoc;
      reflexivity.
Qed.

Lemma listen_settled (events : list (N * ChildEvent)) (st : Listener) :
  settled st <> Pending ->
  settled (fold_left on_event events st) = settled st
  /\ elapsed (fold_left on_event events st) = elapsed st.
Proof.
  revert st. induction events as [|[d e] events IH]; intros st Hst.
  - auto.
  - simpl fold_left.
    assert (settled (on_event st (d, e)) = settled st
            /\ elapsed (on_event st (d, e)) = elapsed st) as [Hs He].
    { unfold on_event. destruct (settled st) eqn:E; [| |congruence];
        destruct e; simpl; rewrite ?E; auto. }
    destruct (IH (on_event st (d, e))) as [Hs' He']; [congruence|].
    split; congruence.
Qed.

(** The promise is settled by the first [close] or [error] event. *)
Lemma listen_first_final (pre post : list (N * ChildEvent))
    (delay : N) (ev : ChildEvent) :
  Forall not_final pre ->
  is_final ev = true ->
  settled (listen (pre ++ (delay, ev) :: post))
  = match ev with
    | close code =>
        if code_nonzero code
        then Rejected ("Execution failed with code " +:+ render_code code
                       +:+ ": " +:+ stderr_of pre)
        else Fulfilled (stdout_of pre)
    | error message => Rejected ("Failed to start process: " +:+ message)
    | _ => Pending
    end
  /\ elapsed (listen (pre ++ (delay, ev) :: post)) = (delay_of pre + delay)%N.
Proof.
  intros Hpre Hev. unfold listen.
  rewrite fold_left_app, (listen_not_final pre); [|exact Hpre|reflexivity].
  cbn [fold_left output stderr settled elapsed].
  match goal with |- context [fold_left on_event post ?s] => set (st := s) end.
  assert (settled st <> Pending) as Hne.
  { subst st. unfold on_event. destruct ev; try discriminate; simpl;
      try destruct (code_nonzero code); discriminate. }
  destruct (listen_settled post st Hne) as [-> ->].
  subst st. unfold on_event. destruct ev; try discriminate; simpl;
    rewrite ?app_nil_l_str; auto.
Qed.




(** ** One test *)

Section HarnessFacts.

Variable host : Host.

Lemma launch_supported (solutionFile language : string) :
  supported language = true ->
  exists command args, launch host solutionFile language = Some (command, args).
Proof.
  unfold supported, launch.
  destruct (String.eqb language "javascript"); [eauto|].
  destruct (String.eqb language "python"); [eauto|].
  destruct (String.eqb language "java"); [eauto|].
  destruct (String.eqb language "cpp"); [eauto|discriminate].
Qed.

Lemma launch_unsupported (solutionFile language : string) :
  supported language = false -> launch host solutionFile language = None.
Proof.
  unfold supported, launch.
  destruct (String.eqb language "javascript"); [discriminate|].
  destruct (String.eqb language "python"); [discriminate|].
  destruct (String.eqb language "java"); [discriminate|].
  destruct (String.eqb language "cpp"); [discriminate|reflexivity].
Qed.

(** [runSingleTest] turns each way [executeCode] can end into a result, and
    waits for ever when [executeCode] does. *)
Lemma runSingleTest_cases
    (problemDir language input expected testName : string) (w : World) :
  runSingleTest host problemDir language input expected testName w
  = match executeCode host (getSolutionFile host problemDir language)
            language input w with
    | (Fulfilled output, w') =>
        (Fulfilled
           {| TestResult.testName := testName;
              TestResult.input := input;
              TestResult.expected := expected;
              TestResult.actual := JS.trim output;
              TestResult.passed :=
                String.eqb (JS.trim output) (JS.trim expected);
              TestResult.error := None;
              TestResult.executionTime := clock w' |}, w')
    | (Rejected message, w') =>
        (Fulfilled
           {| TestResult.testName := testName;
              TestResult.input := input;
              TestResult.expected := expected;
              TestResult.actual := "";
              TestResult.passed := false;
              TestResult.error := Some message;
              TestResult.executionTime := clock w' |}, w')
    | (Pending, w') => (Pending, w')
    end.
Proof.
  unfold runSingleTest, try_catch, bind.
  destruct (executeCode _ _ _ _ w) as [[output|message|] w']; reflexivity.
Qed.

Lemma runSingleTest_result
    (problemDir language input expected testName : string) (w w' : World)
    (r : TestResult.t) :
  runSingleTest host problemDir language input expected testName w
  = (Fulfilled r, w') ->
  reports (testName, {| TestCase.input := input;
                        TestCase.expected := expected |}) r
  /\ judged r.
Proof.
  rewrite runSingleTest_cases.
  destruct (executeCode _ _ _ _ w) as [[output|message|] w1];
    intros [= <- <-]; unfold reports, judged; simpl; auto.
Qed.




(** One test of a supported language starts exactly one child and leaves
    the files alone. *)
Lemma runSingleTest_spawned
    (problemDir language input expected testName : string) (w w' : World)
    (c : Completion TestResult.t) :
  supported language = true ->
  runSingleTest host problemDir language input expected testName w = (c, w') ->
  length (spawned w') = S (length (spawned w)).
Proof.
  intros Hs. rewrite runSingleTest_cases. unfold executeCode.
  destruct (launch_supported (getSolutionFile host problemDir language)
              language Hs) as (command & args & ->).
  match goal with |- context [spawn host ?n ?req] =>
    destruct (spawn host n req) as [m|events]
  end.
  - intros [= <- <-]. simpl. rewrite length_app. simpl. lia.
  - destruct (settled (listen events)); intros [= <- <-]; simpl;
      rewrite length_app; simpl; lia.
Qed.

(** One test of any other language starts no child and is reported as an
    error of that test. *)
Lemma runSingleTest_unsupported
    (problemDir language input expected testName : string) (w : World) :
  supported language = false ->
  runSingleTest host problemDir language input expected testName w
  = (Fulfilled
       {| TestResult.testName := testName;
          TestResult.input := input;
          TestResult.expected := expected;
          TestResult.actual := "";
          TestResult.passed := false;
          TestResult.error := Some ("Unsupported language: " +:+ language);
          TestResult.executionTime := clock w |}, w).
Proof.
  intros Hs. rewrite runSingleTest_cases. unfold executeCode.
  rewrite launch_unsupported by exact Hs. reflexivity.
Qed.

End HarnessFacts.

(** ** The run *)

(** Split the conjunctions of the goal, and nothing under a definition. *)
Ltac conjs := repeat match goal with |- _ /\ _ => split end.

Lemma tallies_snoc (s : Summary.t) (verdicts : list bool) (b : bool) :
  tallies s verdicts ->
  tallies
    {| Summary.passed := if b then S (Summary.passed s) else Summary.passed s;
       Summary.failed := if b then Summary.failed s else S (Summary.failed s);
       Summary.total := S (Summary.total s) |}
    (verdicts ++ [b]).
Proof.
  intros (Ht & Hp & Hf). unfold tallies. simpl.
  rewrite !filter_app, !length_app, Ht, Hp, Hf.
  destruct b; simpl; repeat split; lia.
Qed.

Lemma record_result_consistent (results : Results.t) (r : TestResult.t) :
  consistent results -> consistent (record_result results r).
Proof.
  unfold consistent, record_result. simpl. intros H.
  rewrite map_app. simpl. apply tallies_snoc, H.
Qed.

Section RunFacts.

Variable host : Host.

Lemma run_custom_inv (problemDir language : string) (rest : list TestCase.t) :
  forall (i : nat) (results r : Results.t) (w w' : World),
    run_custom host problemDir language rest i results w = (Fulfilled r, w') ->
    exists rs,
      Results.tests r = Results.tests results ++ rs
      /\ Forall2 reports (custom_from i rest) rs
      /\ Forall judged rs
      /\ (consistent results -> consistent r)
      /\ Results.problemId r = Results.problemId results
      /\ (supported language = true ->
          length (spawned w') = length (spawned w) + length rs).
Proof.
  induction rest as [|testCase rest IH]; intros i results r w w'; simpl.
  - intros [= <- <-]. exists []. rewrite app_nil_r.
    conjs; auto; constructor.
  - unfold bind at 1.
    destruct (runSingleTest host problemDir language _ _ _ w)
      as [[r1|m|] w1] eqn:E; [|discriminate|discriminate].
    intros (rs & Ht & Hr & Hj & Hc & Hp & Hs)%IH.
    destruct (runSingleTest_result host _ _ _ _ _ _ _ _ E) as [Hr1 Hj1].
    exists (r1 :: rs). simpl in Ht. rewrite <- app_assoc in Ht.
    conjs; auto.
    + intros Hcons. apply Hc, record_result_consistent, Hcons.
    + intros Hsup. rewrite (Hs Hsup).
      rewrite (runSingleTest_spawned host _ _ _ _ _ _ _ _ Hsup E).
      simpl. lia.
Qed.


(** A result object returned by [runTests]: the suite was read, its tests
    report the named cases of the suite in order, each is judged, and the
    summary counts them. *)
Lemma runTests_inv (problemId language : string) (w w' : World)
    (r : Results.t) :
  runTests host problemId language w = (Fulfilled r, w') ->
  exists suite,
    files w !! suite_path host problemId = Some (SuiteJson suite)
    /\ Forall2 reports (named_cases suite) (Results.tests r)
    /\ Forall judged (Results.tests r)
    /\ consistent r
    /\ Results.problemId r = problemId
    /\ (supported language = true ->
        length (spawned w')
        = length (spawned w) + length (Results.tests r)).
Proof.
  unfold runTests, try_catch, bind at 1, readSuite.
  fold (suite_path host problemId).
  destruct (files w !! suite_path host problemId) as [[suite|m]|] eqn:Hfile;
    [|discriminate|discriminate].
  unfold bind at 1, date_now. unfold bind at 1.
  assert (consistent
            {| Results.problemId := problemId;
               Results.language := language;
               Results.timestamp := clock w;
               Results.tests := [];
               Results.summary :=
                 {| Summary.passed := 0; Summary.failed := 0;
                    Summary.total := 0 |} |}) as Hinit.
  { unfold consistent, tallies. simpl. auto. }
  destruct (JS.truthy (TestCase.input (TestSuite.sample suite))) eqn:Hsample.
  - unfold bind at 1, ret.
    destruct (runSingleTest host _ language _ _ "sample" w)
      as [[r0|m|] w0] eqn:E; [|discriminate|discriminate].
    destruct (run_custom host _ language _ 0 _ w0) as [[r1|m|] w1] eqn:E1;
      [|discriminate|discriminate].
    intros [= <- <-].
    apply run_custom_inv in E1 as (rs & Ht & Hr & Hj & Hc & Hp & Hs).
    destruct (runSingleTest_result host _ _ _ _ _ _ _ _ E) as [Hr0 Hj0].
    exists suite. unfold named_cases. rewrite Hsample.
    simpl in Ht. rewrite Ht.
    conjs; auto.
    + simpl. constructor; [|exact Hr].
      destruct (TestSuite.sample suite); exact Hr0.
    + apply Hc, (record_result_consistent _ r0), Hinit.
    + intros Hsup. rewrite (Hs Hsup).
      rewrite (runSingleTest_spawned host _ _ _ _ _ _ _ _ Hsup E).
      simpl. lia.
  - unfold ret.
    destruct (run_custom host _ language _ 0 _ w) as [[r1|m|] w1] eqn:E1;
      [|discriminate|discriminate].
    intros [= <- <-].
    apply run_custom_inv in E1 as (rs & Ht & Hr & Hj & Hc & Hp & Hs).
    exists suite. unfold named_cases. rewrite Hsample.
    simpl in Ht. rewrite Ht.
    conjs; auto.
Qed.


End RunFacts.

(** ** Worked runs *)

Example slow_run_exit_time : exit_time slow_events = Some 3600005%N.
Proof. reflexivity. Qed.

Example two_sum_good_run :
  (test_route (node_host (fun _ _ => good_child)) "two-sum" "javascript"
     two_sum_world).1
  = Fulfilled
      {| Report.problemId := "two-sum";
         Report.summary :=
           {| Summary.passed := 2; Summary.failed := 0; Summary.total := 2 |};
         Report.details :=
           [{| Detail.testName := "sample"; Detail.passed := true;
               Detail.input := "2 7 11 15" +:+ nl +:+ "9";
               Detail.expected := "0 1"; Detail.actual := "0 1";
               Detail.diff := None; Detail.error := None |};
            {| Detail.testName := "custom-0"; Detail.passed := true;
               Detail.input := "3 3" +:+ nl +:+ "6";
               Detail.expected := "0 1"; Detail.actual := "0 1";
               Detail.diff := None; Detail.error := None |}] |}.
Proof. vm_compute. reflexivity. Qed.

(** ** Running time *)




(** ** The report *)

Lemma detail_of_diff (test : TestResult.t) :
  is_Some (Detail.diff (detail_of test)) <-> Detail.passed (detail_of test) = false.
Proof.
  unfold detail_of. simpl. destruct (TestResult.passed test); simpl.
  - split; [intros [x Hx]; discriminate | discriminate].
  - split; [reflexivity | eauto].
Qed.

Lemma detail_of_error (test : TestResult.t) :
  judged test ->
  is_Some (Detail.error (detail_of test)) ->
  Detail.passed (detail_of test) = false
  /\ Detail.actual (detail_of test) = ""
  /\ Detail.diff (detail_of test)
     = Some (generateDiff (Detail.expected (detail_of test)) "").
Proof.
  unfold judged, detail_of. simpl.
  destruct (TestResult.error test) as [message|]; simpl.
  - intros [-> ->] _. auto.
  - intros _ [x Hx]. discriminate.
Qed.

(** [C2], as amended: in every report of [generateDiffReport] the diff of
    an outcome is present if and only if the outcome did not pass, whether
    or not an error is set; and in the report of a run, an outcome whose
    error is set did not pass, has the empty actual output and carries a
    diff as well, the one of its expected output against the empty
    string. *)
Theorem diff_present_iff_not_passed :
  (forall testResults : Results.t,
     Forall (fun d => is_Some (Detail.diff d) <-> Detail.passed d = false)
       (Report.details (generateDiffReport testResults)))
  /\ (forall (host : Host) (problemId language : string) (w : World)
        (report : Report.t),
        (test_route host problemId language w).1 = Fulfilled report ->
        Forall
          (fun d =>
             is_Some (Detail.error d) ->
             Detail.passed d = false
             /\ Detail.actual d = ""
             /\ Detail.diff d = Some (generateDiff (Detail.expected d) ""))
          (Report.details report)).
Proof.
  split.
  - intros testResults. unfold generateDiffReport. simpl.
    apply Forall_map, Forall_forall. intros test _. apply detail_of_diff.
  - intros host problemId language w report.
    unfold test_route, bind, ret.
    destruct (runTests host problemId language w) as [[r|m|] w1] eqn:E;
      [|discriminate|discriminate].
    intros [= <-].
    apply runTests_inv in E as (suite & _ & _ & Hj & _).
    unfold generateDiffReport. simpl.
    apply Forall_map. eapply Forall_impl; [exact Hj|].
    intros test Htest. apply detail_of_error, Htest.
Qed.

Lemma diff_present_iff_not_passed_witness :
  let run :=
    test_route (node_host (first_child (Child crashing_events))) "two-sum"
      "javascript" two_sum_world in
  run.1 = Fulfilled crash_report
  /\ Forall
       (fun d =>
          is_Some (Detail.error d) ->
          Detail.passed d = false
          /\ Detail.actual d = ""
          /\ Detail.diff d = Some (generateDiff (Detail.expected d) ""))
       (Report.details crash_report).
Proof.
  intros run.
  assert (run.1 = Fulfilled crash_report) as Hrun
    by (vm_compute; reflexivity).
  split; [exact Hrun|].
  exact (proj2 diff_present_iff_not_passed
           (node_host (first_child (Child crashing_events))) "two-sum"
           "javascript" two_sum_world crash_report Hrun).
Defined.

(** The claim [C2] fails on the code: the outcome of a child that exits
    with code 1 carries both the error and a diff. *)
Lemma error_outcome_carries_diff :
  (test_route (node_host (first_child (Child crashing_events))) "two-sum"
     "javascript" two_sum_world).1
  = Fulfilled
      {| Report.problemId := "two-sum";
         Report.summary :=
           {| Summary.passed := 1; Summary.failed := 1; Summary.total := 2 |};
         Report.details :=
           [{| Detail.testName := "sample"; Detail.passed := false;
               Detail.input := "2 7 11 15" +:+ nl +:+ "9";
               Detail.expected := "0 1"; Detail.actual := "";
               Detail.diff := Some ("- 0 1" +:+ nl +:+ "+ ");
               Detail.error := Some "Execution failed with code 1: boom" |};
            {| Detail.testName := "custom-0"; Detail.passed := true;
               Detail.input := "3 3" +:+ nl +:+ "6";
               Detail.expected := "0 1"; Detail.actual := "0 1";
               Detail.diff := None; Detail.error := None |}] |}.
Proof. vm_compute. reflexivity. Qed.

(** ** Languages *)

Lemma supported_false (language : string) :
  ~ In language ["javascript"; "python"; "java"; "cpp"] ->
  supported language = false.
Proof.
  intros Hnot. unfold supported.
  destruct (String.eqb_spec language "javascript") as [->|_];
    [exfalso; apply Hnot; simpl; auto|].
  destruct (String.eqb_spec language "python") as [->|_];
    [exfalso; apply Hnot; simpl; auto|].
  destruct (String.eqb_spec language "java") as [->|_];
    [exfalso; apply Hnot; simpl; auto|].
  destruct (String.eqb_spec language "cpp") as [->|_];
    [exfalso; apply Hnot; simpl; auto 6|].
  reflexivity.
Qed.

Section Unsupported.

Variable host : Host.
Variable language : string.
Hypothesis Hlanguage : supported language = false.

Lemma run_custom_unsupported (problemDir : string) (rest : list TestCase.t) :
  forall (i : nat) (results : Results.t) (w : World),
    exists r rs,
      run_custom host problemDir language rest i results w = (Fulfilled r, w)
      /\ Results.tests r = Results.tests results ++ rs
      /\ Forall (unsupported_result language) rs.
Proof.
  induction rest as [|testCase rest IH]; intros i results w; simpl.
  - exists results, []. rewrite app_nil_r. auto.
  - unfold bind at 1.
    rewrite runSingleTest_unsupported by exact Hlanguage.
    match goal with |- context [record_result results ?t] =>
      destruct (IH (S i) (record_result results t) w)
        as (r & rs & -> & Ht & Hrs);
      exists r, (t :: rs)
    end.
    conjs; [reflexivity| |].
    + rewrite Ht. simpl. rewrite <- app_assoc. reflexivity.
    + constructor; [|exact Hrs]. unfold unsupported_result. auto.
Qed.

Lemma runTests_unsupported (problemId : string) (w : World)
    (suite : TestSuite.t) :
  files w !! suite_path host problemId = Some (SuiteJson suite) ->
  exists r,
    runTests host problemId language w = (Fulfilled r, w)
    /\ Forall (unsupported_result language) (Results.tests r).
Proof.
  intros Hfile.
  unfold runTests, try_catch, bind at 1, readSuite.
  fold (suite_path host problemId). rewrite Hfile.
  unfold bind at 1, date_now. unfold bind at 1.
  destruct (JS.truthy (TestCase.input (TestSuite.sample suite))).
  - unfold bind at 1, ret.
    rewrite runSingleTest_unsupported by exact Hlanguage.
    match goal with |- context [run_custom host ?d language ?c ?i ?res w] =>
      destruct (run_custom_unsupported d c i res w)
        as (r & rs & -> & Ht & Hrs)
    end.
    exists r. split; [reflexivity|].
    rewrite Ht. simpl. constructor; [|exact Hrs].
    unfold unsupported_result. auto.
  - unfold ret.
    match goal with |- context [run_custom host ?d language ?c ?i ?res w] =>
      destruct (run_custom_unsupported d c i res w)
        as (r & rs & -> & Ht & Hrs)
    end.
    exists r. split; [reflexivity|].
    rewrite Ht. exact Hrs.
Qed.

End Unsupported.

(** [C3], as amended: for a language other than javascript, python, java
    and cpp, [runTests] does not abort. When the suite of the problem can
    be read it returns a result object with one outcome for every test
    case of the suite, in order, and each of these outcomes has failed, has
    the empty actual output and carries the error [Unsupported language:]
    followed by the language; no child process is started and nothing else
    changes. *)
Theorem unsupported_language_fails_each_test (host : Host)
    (problemId language : string) (w : World) (suite : TestSuite.t) :
  ~ In language ["javascript"; "python"; "java"; "cpp"] ->
  files w !! suite_path host problemId = Some (SuiteJson suite) ->
  exists r,
    runTests host problemId language w = (Fulfilled r, w)
    /\ Forall2 reports (named_cases suite) (Results.tests r)
    /\ Forall (unsupported_result language) (Results.tests r).
Proof.
  intros Hnot Hfile.
  destruct (runTests_unsupported host language (supported_false _ Hnot)
              problemId w suite Hfile) as (r & Hrun & Hall).
  exists r. conjs; [exact Hrun| |exact Hall].
  destruct (runTests_inv host _ _ _ _ _ Hrun) as (suite' & Hfile' & Hr & _).
  rewrite Hfile in Hfile'. injection Hfile' as <-. exact Hr.
Qed.

Lemma unsupported_language_fails_each_test_witness :
  let host := node_host (fun _ _ => good_child) in
  ~ In "ruby" ["javascript"; "python"; "java"; "cpp"]
  /\ files two_sum_world !! suite_path host "two-sum"
     = Some (SuiteJson two_sum_suite)
  /\ exists r,
       runTests host "two-sum" "ruby" two_sum_world = (Fulfilled r, two_sum_world)
       /\ Forall2 reports (named_cases two_sum_suite) (Results.tests r)
       /\ Forall (unsupported_result "ruby") (Results.tests r).
Proof.
  intros host.
  assert (~ In "ruby" ["javascript"; "python"; "java"; "cpp"]) as Hnot.
  { simpl. intros [H|[H|[H|[H|[]]]]]; discriminate H. }
  assert (files two_sum_world !! suite_path host "two-sum"
          = Some (SuiteJson two_sum_suite)) as Hfile
    by (vm_compute; reflexivity).
  split; [exact Hnot|]. split; [exact Hfile|].
  exact (unsupported_language_fails_each_test host "two-sum" "ruby"
           two_sum_world two_sum_suite Hnot Hfile).
Defined.

(** The claim [C3] fails on the code: a run in the language [ruby] returns
    a result object with the outcomes of both test cases. *)
Lemma unsupported_language_returns_report :
  (runTests (node_host (fun _ _ => good_child)) "two-sum" "ruby"
     two_sum_world).1
  = Fulfilled
      {| Results.problemId := "two-sum";
         Results.language := "ruby";
         Results.timestamp := 1000;
         Results.tests :=
           [{| TestResult.testName := "sample";
               TestResult.input := "2 7 11 15" +:+ nl +:+ "9";
               TestResult.expected := "0 1";
               TestResult.actual := "";
               TestResult.passed := false;
               TestResult.error := Some "Unsupported language: ruby";
               TestResult.executionTime := 1000 |};
            {| TestResult.testName := "custom-0";
               TestResult.input := "3 3" +:+ nl +:+ "6";
               TestResult.expected := "0 1";
               TestResult.actual := "";
               TestResult.passed := false;
               TestResult.error := Some "Unsupported language: ruby";
               TestResult.executionTime := 1000 |}];
         Results.summary :=
           {| Summary.passed := 0; Summary.failed := 2; Summary.total := 2 |} |}.
Proof. vm_compute. reflexivity. Qed.

(** ** Adding a test case *)




(** ** The summary *)

Lemma verdicts_partition (verdicts : list bool) :
  length (filter (fun b => b = true) verdicts)
  + length (filter (fun b => b = false) verdicts)
  = length verdicts.
Proof.
  induction verdicts as [|b verdicts IH]; [reflexivity|].
  rewrite !filter_cons.
  destruct b; repeat case_decide; try congruence; simpl; lia.
Qed.

Lemma details_verdicts (b : bool) (tests : list TestResult.t) :
  length (filter (fun d => Detail.passed d = b) (map detail_of tests))
  = length (filter (fun v => v = b) (map TestResult.passed tests)).
Proof.
  induction tests as [|test tests IH]; [reflexivity|].
  simpl map. rewrite !filter_cons.
  change (Detail.passed (detail_of test)) with (TestResult.passed test).
  case_decide; simpl; rewrite IH; reflexivity.
Qed.

(** [C5]: in the report of every run, the total of the summary is the sum
    of its passed and failed counts and is the number of details; the
    passed count is the number of details that passed and the failed count
    the number of details that did not, so every test is counted once. *)
Theorem summary_counts_details (host : Host) (problemId language : string)
    (w : World) (report : Report.t) :
  (test_route host problemId language w).1 = Fulfilled report ->
  let s := Report.summary report in
  Summary.total s = Summary.passed s + Summary.failed s
  /\ Summary.total s = length (Report.details report)
  /\ Summary.passed s
     = length (filter (fun d => Detail.passed d = true) (Report.details report))
  /\ Summary.failed s
     = length (filter (fun d => Detail.passed d = false) (Report.details report)).
Proof.
  unfold test_route, bind, ret.
  destruct (runTests host problemId language w) as [[r|m|] w1] eqn:E;
    [|discriminate|discriminate].
  intros [= <-].
  apply runTests_inv in E as (suite & _ & _ & _ & (Ht & Hp & Hf) & _).
  unfold generateDiffReport. simpl.
  rewrite !details_verdicts, length_map.
  rewrite length_map in Ht.
  pose proof (verdicts_partition (map TestResult.passed (Results.tests r)))
    as Hsum.
  rewrite length_map in Hsum.
  conjs; [lia|exact Ht|exact Hp|exact Hf].
Qed.

Lemma summary_counts_details_witness :
  let host := node_host (first_child (Child crashing_events)) in
  (test_route host "two-sum" "javascript" two_sum_world).1
  = Fulfilled crash_report
  /\ 2 = 1 + 1
  /\ 2 = length (Report.details crash_report)
  /\ 1 = length (filter (fun d => Detail.passed d = true)
                   (Report.details crash_report))
  /\ 1 = length (filter (fun d => Detail.passed d = false)
                   (Report.details crash_report)).
Proof.
  intros host.
  assert ((test_route host "two-sum" "javascript" two_sum_world).1
          = Fulfilled crash_report) as Hrun
    by (vm_compute; reflexivity).
  split; [exact Hrun|].
  exact (summary_counts_details host "two-sum" "javascript" two_sum_world
           crash_report Hrun).
Defined.

(** ** Comparison *)

Example compare_trims_both_ends :
  compareOutput (JS.trim ("  0 1" +:+ nl)) (JS.trim ("0 1" +:+ nl +:+ nl)) = true.
Proof. reflexivity. Qed.

Example compare_keeps_line_ends :
  compareOutput (JS.trim ("1 " +:+ nl +:+ "2")) (JS.trim ("1" +:+ nl +:+ "2"))
  = false.
Proof. reflexivity. Qed.

Example compare_keeps_case : compareOutput (JS.trim "Yes") (JS.trim "yes") = false.
Proof. reflexivity. Qed.

Example compare_keeps_digits : compareOutput (JS.trim "1.0") (JS.trim "1") = false.
Proof. reflexivity. Qed.

(** [C6]: the verdict of a test whose execution gave an output is the
    comparison of the trimmed output with the trimmed expected text, and it
    is [true] exactly when the output and the expected text are the same
    string once the white space at the start and at the end of each whole
    string is removed; the comparison itself is plain equality of strings,
    so nothing inside the two strings is trimmed, folded or rounded. *)
Theorem compare_is_equality_after_trim (host : Host) (w : World)
    (problemDir language input expected testName output : string) :
  (executeCode host (getSolutionFile host problemDir language) language
     input w).1 = Fulfilled output ->
  exists r,
    (runSingleTest host problemDir language input expected testName w).1
    = Fulfilled r
    /\ TestResult.passed r
       = compareOutput (JS.trim output) (JS.trim expected)
    /\ (TestResult.passed r = true
        <-> exists t, Trimmed output t /\ Trimmed expected t)
    /\ (forall actual' expected' : string,
          compareOutput actual' expected' = true <-> actual' = expected').
Proof.
  intros Hrun. rewrite runSingleTest_cases.
  destruct (executeCode _ _ _ _ w) as [[out|m|] w1]; simpl in Hrun;
    try discriminate.
  injection Hrun as ->.
  eexists. split; [reflexivity|]. simpl.
  split; [reflexivity|]. split.
  - rewrite String.eqb_eq. split.
    + intros Heq. exists (JS.trim output). split; [apply trim_Trimmed|].
      rewrite Heq. apply trim_Trimmed.
    + intros (t & Ho & He).
      rewrite (Trimmed_trim _ _ Ho), (Trimmed_trim _ _ He). reflexivity.
  - intros a e. unfold compareOutput. apply String.eqb_eq.
Qed.

Lemma compare_is_equality_after_trim_witness :
  let host := node_host (fun _ _ => good_child) in
  (executeCode host (getSolutionFile host two_sum_dir "javascript")
     "javascript" "9" two_sum_world).1 = Fulfilled ("0 1" +:+ nl)
  /\ exists r,
       (runSingleTest host two_sum_dir "javascript" "9" " 0 1" "sample"
          two_sum_world).1 = Fulfilled r
       /\ TestResult.passed r
          = compareOutput (JS.trim ("0 1" +:+ nl)) (JS.trim " 0 1")
       /\ (TestResult.passed r = true
           <-> exists t, Trimmed ("0 1" +:+ nl) t /\ Trimmed " 0 1" t)
       /\ (forall actual' expected' : string,
             compareOutput actual' expected' = true <-> actual' = expected').
Proof.
  intros host.
  assert ((executeCode host (getSolutionFile host two_sum_dir "javascript")
             "javascript" "9" two_sum_world).1 = Fulfilled ("0 1" +:+ nl))
    as Hrun by (vm_compute; reflexivity).
  split; [exact Hrun|].
  exact (compare_is_equality_after_trim host two_sum_world two_sum_dir
           "javascript" "9" " 0 1" "sample" ("0 1" +:+ nl) Hrun).
Defined.

(** ** The cases of a run *)

Example of_nat_decimal :
  JS.of_nat 0 = "0" /\ JS.of_nat 9 = "9" /\ JS.of_nat 10 = "10"
  /\ JS.of_nat 123 = "123".
Proof. repeat split; reflexivity. Qed.








(** ** Failures of one test *)

Lemma execution_fails_rejects (host : Host) (w : World)
    (solutionFile language input : string) :
  execution_fails host w solutionFile language input ->
  exists message,
    (executeCode host solutionFile language input w).1 = Rejected message.
Proof.
  unfold execution_fails, executeCode.
  intros [->|(command & args & -> & Hspawn)]; [eauto|].
  fold (request_for host solutionFile input command args).
  destruct Hspawn as [[m ->]|(pre & d & ev & post & -> & Hpre & Hev)];
    [eauto|].
  simpl.
  destruct Hev as [[m ->]|(code & -> & Hcode)].
  - destruct (listen_first_final pre post d (error m) Hpre eq_refl) as [-> _].
    eauto.
  - destruct (listen_first_final pre post d (close code) Hpre eq_refl)
      as [-> _].
    rewrite Hcode. eauto.
Qed.

(** [C10]: when the execution of a test case fails with an error, because
    the language is not supported, the process cannot be started or it
    exits with a code other than 0, the outcome has failed, carries the
    error and has the empty string as its actual output, whatever the
    child printed before; the diff of that outcome in the report is the
    diff of the expected output against the empty string. *)
Theorem failed_execution_has_empty_actual (host : Host) (w : World)
    (problemDir language input expected testName : string) :
  execution_fails host w (getSolutionFile host problemDir language)
    language input ->
  exists r message,
    (runSingleTest host problemDir language input expected testName w).1
    = Fulfilled r
    /\ TestResult.actual r = ""
    /\ TestResult.passed r = false
    /\ TestResult.error r = Some message
    /\ Detail.actual (detail_of r) = ""
    /\ Detail.diff (detail_of r) = Some (generateDiff expected "").
Proof.
  intros (message & Hrun)%execution_fails_rejects.
  rewrite runSingleTest_cases.
  destruct (executeCode _ _ _ _ w) as [[out|m|] w1]; simpl in Hrun;
    try discriminate.
  injection Hrun as ->.
  eexists. exists message. split; [reflexivity|]. simpl. auto 6.
Qed.

Lemma failed_execution_has_empty_actual_witness :
  let host := node_host (fun _ _ => Child crashing_events) in
  execution_fails host two_sum_world
    (getSolutionFile host two_sum_dir "javascript") "javascript" "9"
  /\ exists r message,
       (runSingleTest host two_sum_dir "javascript" "9" "0 1" "sample"
          two_sum_world).1 = Fulfilled r
       /\ TestResult.actual r = ""
       /\ TestResult.passed r = false
       /\ TestResult.error r = Some message
       /\ Detail.actual (detail_of r) = ""
       /\ Detail.diff (detail_of r) = Some (generateDiff "0 1" "").
Proof.
  intros host.
  assert (execution_fails host two_sum_world
            (getSolutionFile host two_sum_dir "javascript") "javascript" "9")
    as Hfails.
  { right. exists "node", ["/srv/app/workspace/two-sum/solution.js"].
    split; [reflexivity|]. right.
    exists [(3%N, stdout_data "0"); (1%N, stderr_data "boom")], 2%N,
      (close (Some 1%N)), [].
    split; [reflexivity|]. split; [repeat constructor|].
    right. exists (Some 1%N). split; reflexivity. }
  split; [exact Hfails|].
  exact (failed_execution_has_empty_actual host two_sum_world two_sum_dir
           "javascript" "9" "0 1" "sample" Hfails).
Defined.

(** ** Failures and the rest of the run *)





(** * Further properties of the harness *)

(** ** The diff *)

Lemma generateDiff_lines (expected actual : string) :
  generateDiff expected actual = JS.join_newline (diff_lines expected actual).
Proof. reflexivity. Qed.

Lemma diff_lines_emit (expected actual : string) :
  let e := JS.split_newline expected in
  let a := JS.split_newline actual in
  let n := Nat.max (length e) (length a) in
  diff_lines expected actual
  = flat_map DiffSpec.emit (zip (DiffSpec.pad n e) (DiffSpec.pad n a)).
Proof.
  intros e a n. unfold diff_lines. fold e a n.
  rewrite diff_loop_flat_map. simpl.
  rewrite <- aligned_zip_pad by lia.
  generalize (seq 0 n). intros indices.
  induction indices as [|i indices IH]; simpl; congruence.
Qed.

Lemma pad_exact (lines : list string) : DiffSpec.pad (length lines) lines = lines.
Proof.
  unfold DiffSpec.pad. rewrite Nat.sub_diag. simpl. apply app_nil_r.
Qed.

Lemma emit_same (lines : list string) :
  flat_map DiffSpec.emit (zip lines lines) = map (String.append "  ") lines.
Proof.
  induction lines as [|line lines IH]; [reflexivity|].
  simpl. unfold DiffSpec.emit at 1. simpl.
  rewrite String.eqb_refl. simpl. rewrite IH. reflexivity.
Qed.

(** [X1]: The diff of a text against itself marks every line as unchanged: it
    is the lines of the text, each after two spaces. *)
Theorem generateDiff_same (text : string) :
  generateDiff text text
  = JS.join_newline (map (String.append "  ") (JS.split_newline text)).
Proof.
  rewrite generateDiff_lines. f_equal.
  rewrite diff_lines_emit. simpl.
  rewrite Nat.max_id, pad_exact. apply emit_same.
Qed.

Lemma flat_map_emit_length (pairs : list (string * string)) :
  length pairs <= length (flat_map DiffSpec.emit pairs) <= 2 * length pairs.
Proof.
  induction pairs as [|p pairs IH]; simpl; [lia|].
  rewrite length_app. unfold DiffSpec.emit at 1 3.
  destruct (String.eqb p.1 p.2); simpl; lia.
Qed.

Lemma join_newline_truthy (c : ascii) (line : string) (rest : list string) :
  JS.truthy (JS.join_newline (String c line :: rest)) = true.
Proof. destruct rest; reflexivity. Qed.

Lemma diff_lines_head (expected actual : string) :
  exists (c : ascii) (line : string) (rest : list string),
    diff_lines expected actual = String c line :: rest.
Proof.
  rewrite diff_lines_emit. simpl.
  destruct (JS.split_newline expected) as [|h t] eqn:He;
    [exfalso; eapply split_newline_nonempty, He|].
  destruct (JS.split_newline actual) as [|h' t'] eqn:Ha;
    [exfalso; eapply split_newline_nonempty, Ha|].
  simpl. unfold DiffSpec.emit at 1. simpl.
  destruct (String.eqb h h'); simpl; eauto.
Qed.

(** [X2]: [generateDiff] never returns the empty string, so a reader that tests
    the diff for truthiness sees every diff; and the diff has at least as
    many lines as the longer of the two texts and at most twice as many. *)
Theorem generateDiff_never_empty (expected actual : string) :
  let n := Nat.max (length (JS.split_newline expected))
             (length (JS.split_newline actual)) in
  JS.truthy (generateDiff expected actual) = true
  /\ 1 <= n
  /\ n <= length (diff_lines expected actual) <= 2 * n.
Proof.
  intros n. split; [|split].
  - rewrite generateDiff_lines.
    destruct (diff_lines_head expected actual) as (c & line & rest & ->).
    apply join_newline_truthy.
  - subst n. pose proof (split_newline_nonempty expected) as H.
    destruct (JS.split_newline expected); [congruence|simpl; lia].
  - rewrite diff_lines_emit. fold n.
    pose proof (flat_map_emit_length
                  (zip (DiffSpec.pad n (JS.split_newline expected))
                     (DiffSpec.pad n (JS.split_newline actual)))) as H.
    rewrite length_zip_with, !pad_length in H by (subst n; lia).
    rewrite Nat.min_id in H. exact H.
Qed.

(** ** More on trimming *)

Lemma all_whitespace_app (s t : string) :
  all_whitespace (s +:+ t) = all_whitespace s && all_whitespace t.
Proof.
  induction s as [|c s IH]; [reflexivity|].
  rewrite app_cons_str. simpl. rewrite IH, andb_assoc. reflexivity.
Qed.

Lemma trim_surrounded (leading s trailing : string) :
  all_whitespace leading = true ->
  all_whitespace trailing = true ->
  JS.trim (leading +:+ s +:+ trailing) = JS.trim s.
Proof.
  intros Hl Hr. apply Trimmed_trim.
  destruct (trim_Trimmed s) as (l & r & Hs & Hl' & Hr' & Hst & Hen).
  exists (leading +:+ l), (r +:+ trailing).
  rewrite !all_whitespace_app, Hl, Hl', Hr, Hr'.
  repeat split; auto.
  rewrite Hs at 1. rewrite !app_assoc_str. reflexivity.
Qed.

Lemma trim_idempotent (s : string) : JS.trim (JS.trim s) = JS.trim s.
Proof.
  apply Trimmed_trim.
  destruct (trim_Trimmed s) as (l & r & _ & _ & _ & Hst & Hen).
  exists "", "". rewrite app_nil_l_str, app_nil_r_str. auto.
Qed.

Lemma all_whitespace_newlines (k : nat) : all_whitespace (newlines k) = true.
Proof. induction k as [|k IH]; [reflexivity|]. simpl. exact IH. Qed.

(** ** A mismatch shows in the diff *)

Lemma or_empty_Some (s : string) : JS.or_empty (Some s) = s.
Proof. destruct s; reflexivity. Qed.

Lemma join_cons (line line' : string) (lines : list string) :
  JS.join_newline (line :: line' :: lines)
  = line +:+ nl +:+ JS.join_newline (line' :: lines).
Proof. reflexivity. Qed.

Lemma join_blank_lines (line : string) (k : nat) :
  JS.join_newline (line :: replicate k "") = line +:+ newlines k.
Proof.
  revert line. induction k as [|k IH]; intros line.
  - simpl. rewrite app_nil_r_str. reflexivity.
  - change (replicate (S k) "") with ("" :: replicate k "").
    rewrite join_cons, IH, app_nil_l_str. reflexivity.
Qed.

Lemma join_padded (lines : list string) (k : nat) :
  lines <> [] ->
  JS.join_newline (lines ++ replicate k "")
  = JS.join_newline lines +:+ newlines k.
Proof.
  induction lines as [|line lines IH]; [congruence|]. intros _.
  destruct lines as [|line' lines].
  - simpl app. rewrite join_blank_lines. reflexivity.
  - assert (line' :: lines <> []) as Hne by discriminate.
    specialize (IH Hne).
    change ((line :: line' :: lines) ++ replicate k "")
      with (line :: line' :: (lines ++ replicate k "")).
    change ((line' :: lines) ++ replicate k "")
      with (line' :: (lines ++ replicate k "")) in IH.
    rewrite !join_cons, IH, !app_assoc_str. reflexivity.
Qed.

(** When the two sequences of lines agree at every index of the longer
    one, the longer one is the shorter one followed by empty lines. *)
Lemma agree_padded (shorter longer : list string) :
  length shorter <= length longer ->
  (forall i, i < length longer ->
     JS.or_empty (shorter !! i) = JS.or_empty (longer !! i)) ->
  longer = shorter ++ replicate (length longer - length shorter) "".
Proof.
  intros Hlen Hagree. apply list_eq. intros i.
  fold (DiffSpec.pad (length longer) shorter).
  destruct (decide (i < length longer)) as [Hi|Hi].
  - rewrite pad_lookup by assumption. rewrite (Hagree i Hi).
    destruct (lookup_lt_is_Some_2 longer i Hi) as [y ->].
    rewrite or_empty_Some. reflexivity.
  - rewrite (lookup_ge_None_2 longer) by lia.
    rewrite lookup_ge_None_2; [reflexivity|].
    rewrite pad_length by exact Hlen. lia.
Qed.

Lemma agree_trim (e a : string) :
  (forall i,
     i < Nat.max (length (JS.split_newline e)) (length (JS.split_newline a)) ->
     JS.or_empty (JS.split_newline e !! i)
     = JS.or_empty (JS.split_newline a !! i)) ->
  JS.trim e = JS.trim a.
Proof.
  intros Hagree.
  destruct (Nat.le_ge_cases (length (JS.split_newline e))
              (length (JS.split_newline a))) as [Hle|Hge].
  - rewrite Nat.max_r in Hagree by exact Hle.
    pose proof (agree_padded _ _ Hle Hagree) as Hpad.
    apply (f_equal JS.join_newline) in Hpad.
    rewrite join_padded, !join_split_newline in Hpad
      by apply split_newline_nonempty.
    rewrite Hpad.
    rewrite <- (app_nil_l_str (e +:+ _)).
    symmetry. apply trim_surrounded;
      [reflexivity | apply all_whitespace_newlines].
  - rewrite Nat.max_l in Hagree by exact Hge.
    assert (forall i, i < length (JS.split_newline e) ->
              JS.or_empty (JS.split_newline a !! i)
              = JS.or_empty (JS.split_newline e !! i)) as Hagree'
      by (intros i Hi; symmetry; apply Hagree, Hi).
    pose proof (agree_padded _ _ Hge Hagree') as Hpad.
    apply (f_equal JS.join_newline) in Hpad.
    rewrite join_padded, !join_split_newline in Hpad
      by apply split_newline_nonempty.
    rewrite Hpad.
    rewrite <- (app_nil_l_str (a +:+ _)).
    apply trim_surrounded;
      [reflexivity | apply all_whitespace_newlines].
Qed.

Lemma emit_removed (e a : list string) (indices : list nat) :
  Exists (fun i => JS.or_empty (e !! i) <> JS.or_empty (a !! i)) indices ->
  Exists removed_line
    (flat_map (fun i => DiffSpec.emit (aligned e a i)) indices).
Proof.
  induction 1 as [i indices Hi|i indices _ IH]; simpl.
  - apply Exists_app. left.
    unfold DiffSpec.emit, aligned. simpl.
    apply String.eqb_neq in Hi. rewrite Hi.
    constructor. eexists. reflexivity.
  - apply Exists_app. right. exact IH.
Qed.

Lemma mismatch_removed (e a : string) :
  JS.trim e <> JS.trim a -> Exists removed_line (diff_lines e a).
Proof.
  intros Hne. unfold diff_lines. rewrite diff_loop_flat_map. simpl.
  apply emit_removed.
  set (n := Nat.max (length (JS.split_newline e))
              (length (JS.split_newline a))).
  destruct (decide
              (Exists
                 (fun i =>
                    JS.or_empty (JS.split_newline e !! i)
                    <> JS.or_empty (JS.split_newline a !! i))
                 (seq 0 n))) as [Hex|Hnex]; [exact Hex|].
  exfalso. apply Hne, agree_trim. fold n. intros i Hi.
  apply not_Exists_Forall in Hnex; [|intros j; apply _].
  rewrite Forall_forall in Hnex.
  destruct (decide (JS.or_empty (JS.split_newline e !! i)
                    = JS.or_empty (JS.split_newline a !! i)))
    as [Heq|Hneq]; [exact Heq|].
  exfalso. apply (Hnex i); [apply list_elem_of_In, in_seq; lia|].
  simpl. exact Hneq.
Qed.

(** [X3]: A test that executed without error and did not pass always shows the
    mismatch: its diff in the report is the join of lines of which at
    least one is a minus line. *)
Theorem failed_comparison_shows_in_diff (host : Host) (w : World)
    (problemDir language input expected testName : string)
    (r : TestResult.t) :
  (runSingleTest host problemDir language input expected testName w).1
  = Fulfilled r ->
  TestResult.error r = None ->
  TestResult.passed r = false ->
  Detail.diff (detail_of r)
  = Some (JS.join_newline (diff_lines expected (TestResult.actual r)))
  /\ Exists removed_line (diff_lines expected (TestResult.actual r)).
Proof.
  rewrite runSingleTest_cases.
  destruct (executeCode _ _ _ _ w) as [[output|m|] w1]; simpl;
    [|intros [= <-]; discriminate|discriminate].
  intros [= <-]. simpl. intros _ Hfailed.
  unfold detail_of. simpl. rewrite Hfailed. simpl.
  split; [reflexivity|].
  apply mismatch_removed. rewrite trim_idempotent.
  apply String.eqb_neq in Hfailed. congruence.
Qed.

Lemma failed_comparison_shows_in_diff_witness :
  let host := node_host (fun _ _ => good_child) in
  let r :=
    {| TestResult.testName := "sample";
       TestResult.input := "9";
       TestResult.expected := "0 2";
       TestResult.actual := "0 1";
       TestResult.passed := false;
       TestResult.error := None;
       TestResult.executionTime := 1006%N |} in
  (runSingleTest host two_sum_dir "javascript" "9" "0 2" "sample"
     two_sum_world).1 = Fulfilled r
  /\ Detail.diff (detail_of r)
     = Some (JS.join_newline (diff_lines "0 2" "0 1"))
  /\ Exists removed_line (diff_lines "0 2" "0 1").
Proof.
  intros host r.
  assert ((runSingleTest host two_sum_dir "javascript" "9" "0 2" "sample"
             two_sum_world).1 = Fulfilled r) as Hrun
    by (vm_compute; reflexivity).
  split; [exact Hrun|].
  exact (failed_comparison_shows_in_diff host two_sum_world two_sum_dir
           "javascript" "9" "0 2" "sample" r Hrun eq_refl eq_refl).
Defined.

(** ** What a run does to the world *)

Section WorldFacts.

Variable host : Host.







End WorldFacts.




(** ** When a run fails *)

Example broken_suite_run :
  runTests (node_host (fun _ _ => good_child)) "two-sum" "javascript"
    broken_world
  = (Rejected "Test execution failed: Unexpected end of JSON input",
     broken_world).
Proof. vm_compute. reflexivity. Qed.

Example missing_suite_run :
  (runTests (node_host (fun _ _ => good_child)) "three-sum" "javascript"
     two_sum_world).1
  = Rejected
      "Test execution failed: ENOENT: no such file or directory, open '/srv/app/workspace/three-sum/test-cases.json'".
Proof. vm_compute. reflexivity. Qed.


(** ** A suite without cases *)

(** [X7]: When the input of the sample is empty and there is no custom case,
    the run executes nothing, whatever the language and whatever the
    expected output of the sample: the report has no detail and a summary
    of zeros, and the world is unchanged. *)
Theorem blank_suite_runs_nothing (host : Host) (problemId language : string)
    (w : World) (suite : TestSuite.t) :
  files w !! suite_path host problemId = Some (SuiteJson suite) ->
  TestCase.input (TestSuite.sample suite) = "" ->
  TestSuite.custom suite = [] ->
  test_route host problemId language w
  = (Fulfilled
       {| Report.problemId := problemId;
          Report.summary :=
            {| Summary.passed := 0; Summary.failed := 0;
               Summary.total := 0 |};
          Report.details := [] |}, w).
Proof.
  intros Hfile Hinput Hcustom.
  unfold test_route, bind at 1, runTests, try_catch, bind at 1, readSuite.
  fold (suite_path host problemId). rewrite Hfile.
  unfold bind at 1, date_now. unfold bind at 1.
  rewrite Hinput, Hcustom. reflexivity.
Qed.

Lemma blank_suite_runs_nothing_witness :
  let host := node_host (fun _ _ => good_child) in
  files blank_world !! suite_path host "new-problem"
  = Some (SuiteJson blank_suite)
  /\ TestCase.input (TestSuite.sample blank_suite) = ""
  /\ TestSuite.custom blank_suite = []
  /\ test_route host "new-problem" "cobol" blank_world
     = (Fulfilled
          {| Report.problemId := "new-problem";
             Report.summary :=
               {| Summary.passed := 0; Summary.failed := 0;
                  Summary.total := 0 |};
             Report.details := [] |}, blank_world).
Proof.
  intros host.
  assert (files blank_world !! suite_path host "new-problem"
          = Some (SuiteJson blank_suite)) as Hfile
    by (vm_compute; reflexivity).
  split; [exact Hfile|]. split; [reflexivity|]. split; [reflexivity|].
  exact (blank_suite_runs_nothing host "new-problem" "cobol" blank_world
           blank_suite Hfile eq_refl eq_refl).
Defined.

(** ** The summary and the verdicts *)

Lemma no_false_verdict (verdicts : list bool) :
  length (filter (fun b => b = false) verdicts) = 0
  <-> Forall (fun b => b = true) verdicts.
Proof.
  induction verdicts as [|b verdicts IH]; [split; [constructor|reflexivity]|].
  rewrite filter_cons. destruct b; case_decide; try congruence; simpl.
  - rewrite IH. split; [constructor; auto|]. inversion 1; assumption.
  - split; [discriminate|]. inversion 1; discriminate.
Qed.

(** [X8]: In the report of a run the failed count is zero exactly when every
    detail has passed, which is the test the page uses for its green
    banner. *)
Theorem no_failure_iff_all_passed (host : Host) (problemId language : string)
    (w : World) (report : Report.t) :
  (test_route host problemId language w).1 = Fulfilled report ->
  Summary.failed (Report.summary report) = 0
  <-> Forall (fun d => Detail.passed d = true) (Report.details report).
Proof.
  unfold test_route, bind, ret.
  destruct (runTests host problemId language w) as [[r|m|] w1] eqn:E;
    [|discriminate|discriminate].
  intros [= <-].
  apply runTests_inv in E as (suite & _ & _ & _ & (_ & _ & Hf) & _).
  unfold generateDiffReport. simpl. rewrite Hf, no_false_verdict.
  rewrite !Forall_map. reflexivity.
Qed.

Lemma no_failure_iff_all_passed_witness :
  let host := node_host (fun _ _ => good_child) in
  (test_route host "two-sum" "javascript" two_sum_world).1
  = Fulfilled two_sum_good_report
  /\ (Summary.failed (Report.summary two_sum_good_report) = 0
      <-> Forall (fun d => Detail.passed d = true)
            (Report.details two_sum_good_report)).
Proof.
  intros host.
  assert ((test_route host "two-sum" "javascript" two_sum_world).1
          = Fulfilled two_sum_good_report) as Hrun
    by (vm_compute; reflexivity).
  split; [exact Hrun|].
  exact (no_failure_iff_all_passed host "two-sum" "javascript" two_sum_world
           two_sum_good_report Hrun).
Defined.

(** ** Adding a case and running it *)





(** [X10]: When [addTestCase] succeeds, the suite it returns is the stored suite
    with the new case at the end, reading the suite again gives the
    returned suite, and nothing else has changed: every other file is as
    before and no child was started. *)
Theorem addTestCase_changes_one_file (host : Host)
    (problemId input expected : string) (w : World) (updated : TestSuite.t) :
  (addTestCase host problemId input expected w).1 = Fulfilled updated ->
  let w' := (addTestCase host problemId input expected w).2 in
  (exists suite,
     files w !! suite_path host problemId = Some (SuiteJson suite)
     /\ updated = with_case suite input expected)
  /\ readSuite (suite_path host problemId) w' = (Fulfilled updated, w')
  /\ (forall path,
        path <> suite_path host problemId ->
        files w' !! path = files w !! path)
  /\ spawned w' = spawned w.
Proof.
  unfold addTestCase, try_catch, bind, readSuite, writeSuite, throw, ret.
  fold (suite_path host problemId).
  destruct (files w !! suite_path host problemId) as [[suite|m]|] eqn:Hfile;
    [|discriminate|discriminate].
  destruct (write_error host (suite_path host problemId)); [discriminate|].
  simpl. intros [= <-].
  split; [eauto|]. split.
  - rewrite lookup_insert_eq. reflexivity.
  - split; [|reflexivity].
    intros path Hne. apply lookup_insert_ne. congruence.
Qed.

Lemma addTestCase_changes_one_file_witness :
  let host := node_host (fun _ _ => good_child) in
  let updated := with_case two_sum_suite "1 2" "0 1" in
  let w' := (addTestCase host "two-sum" "1 2" "0 1" two_sum_world).2 in
  (addTestCase host "two-sum" "1 2" "0 1" two_sum_world).1 = Fulfilled updated
  /\ (exists suite,
        files two_sum_world !! suite_path host "two-sum"
        = Some (SuiteJson suite)
        /\ updated = with_case suite "1 2" "0 1")
  /\ readSuite (suite_path host "two-sum") w' = (Fulfilled updated, w')
  /\ (forall path,
        path <> suite_path host "two-sum" ->
        files w' !! path = files two_sum_world !! path)
  /\ spawned w' = spawned two_sum_world.
Proof.
  intros host updated w'.
  assert ((addTestCase host "two-sum" "1 2" "0 1" two_sum_world).1
          = Fulfilled updated) as Hrun
    by (vm_compute; reflexivity).
  split; [exact Hrun|].
  exact (addTestCase_changes_one_file host "two-sum" "1 2" "0 1"
           two_sum_world updated Hrun).
Defined.

(** ** The first event that settles the promise *)

(** [X11]: The promise of [executeCode] is decided by the first [close] or
    [error] event of the child and by what the child wrote before it;
    events after it change nothing. An [error] event rejects with
    [Failed to start process: ] and its message, even when a [close] event
    follows. A [close] event with code 0 fulfils with the standard output
    written so far, whatever was written to standard error; with any other
    code, or with no code because a signal ended the child, it rejects
    with the code and the standard error written so far. *)
Theorem executeCode_first_event_decides (host : Host) (w : World)
    (solutionFile language input command : string) (args : list string)
    (pre post : list (N * ChildEvent)) (delay : N) (ev : ChildEvent) :
  launch host solutionFile language = Some (command, args) ->
  spawn host (length (spawned w))
    (request_for host solutionFile input command args)
  = Child (pre ++ (delay, ev) :: post) ->
  Forall not_final pre ->
  (forall code,
     ev = close code ->
     (executeCode host solutionFile language input w).1
     = if code_nonzero code
       then Rejected ("Execution failed with code " +:+ render_code code
                      +:+ ": " +:+ stderr_of pre)
       else Fulfilled (stdout_of pre))
  /\ (forall message,
        ev = error message ->
        (executeCode host solutionFile language input w).1
        = Rejected ("Failed to start process: " +:+ message)).
Proof.
  intros Hlaunch Hspawn Hpre. unfold executeCode. rewrite Hlaunch.
  fold (request_for host solutionFile input command args). rewrite Hspawn.
  simpl. split.
  - intros code ->.
    destruct (listen_first_final pre post delay (close code) Hpre eq_refl)
      as [-> _].
    reflexivity.
  - intros message ->.
    destruct (listen_first_final pre post delay (error message) Hpre eq_refl)
      as [-> _].
    reflexivity.
Qed.

Lemma executeCode_first_event_decides_witness :
  let host := node_host (fun _ _ => Child missing_binary_events) in
  let solutionFile := getSolutionFile host two_sum_dir "javascript" in
  launch host solutionFile "javascript" = Some ("node", [solutionFile])
  /\ spawn host (length (spawned two_sum_world))
       (request_for host solutionFile "9" "node" [solutionFile])
     = Child ([] ++ (1%N, error "spawn node ENOENT")
                    :: [(0%N, close (Some 254%N))])
  /\ Forall not_final []
  /\ (executeCode host solutionFile "javascript" "9" two_sum_world).1
     = Rejected "Failed to start process: spawn node ENOENT".
Proof.
  intros host solutionFile.
  assert (Forall not_final []) as Hpre by constructor.
  split; [reflexivity|]. split; [reflexivity|]. split; [exact Hpre|].
  exact (proj2
           (executeCode_first_event_decides host two_sum_world solutionFile
              "javascript" "9" "node" [solutionFile] []
              [(0%N, close (Some 254%N))] 1%N (error "spawn node ENOENT")
              eq_refl eq_refl Hpre)
           "spawn node ENOENT" eq_refl).
Defined.

(** ** What a result shows *)

(** [X12]: White space around the expected output of a test case never changes
    the verdict of the test. *)
Theorem verdict_ignores_outer_whitespace (host : Host) (w : World)
    (problemDir language input expected testName leading trailing : string) :
  all_whitespace leading = true ->
  all_whitespace trailing = true ->
  verdict_of
    (runSingleTest host problemDir language input
       (leading +:+ expected +:+ trailing) testName w).1
  = verdict_of
      (runSingleTest host problemDir language input expected testName w).1.
Proof.
  intros Hl Hr. rewrite !runSingleTest_cases.
  destruct (executeCode _ _ _ _ w) as [[output|m|] w1]; simpl;
    [|reflexivity|reflexivity].
  rewrite trim_surrounded by assumption. reflexivity.
Qed.

Lemma verdict_ignores_outer_whitespace_witness :
  let host := node_host (fun _ _ => good_child) in
  all_whitespace "  " = true
  /\ all_whitespace nl = true
  /\ verdict_of
       (runSingleTest host two_sum_dir "javascript" "9"
          ("  " +:+ "0 1" +:+ nl) "sample" two_sum_world).1
     = verdict_of
         (runSingleTest host two_sum_dir "javascript" "9" "0 1" "sample"
            two_sum_world).1.
Proof.
  intros host.
  split; [reflexivity|]. split; [reflexivity|].
  exact (verdict_ignores_outer_whitespace host two_sum_world two_sum_dir
           "javascript" "9" "0 1" "sample" "  " nl eq_refl eq_refl).
Defined.

(** [X13]: The result of a test keeps the input and the expected output of its
    case as they are stored, while its actual output is always trimmed: it
    neither starts nor ends with white space. *)
Theorem result_actual_is_trimmed (host : Host) (w : World)
    (problemDir language input expected testName : string)
    (r : TestResult.t) :
  (runSingleTest host problemDir language input expected testName w).1
  = Fulfilled r ->
  TestResult.input r = input
  /\ TestResult.expected r = expected
  /\ JS.trim (TestResult.actual r) = TestResult.actual r
  /\ starts_with_whitespace (TestResult.actual r) = false
  /\ ends_with_whitespace (TestResult.actual r) = false.
Proof.
  rewrite runSingleTest_cases.
  destruct (executeCode _ _ _ _ w) as [[output|m|] w1]; simpl;
    [| |discriminate]; intros [= <-]; simpl.
  - destruct (trim_Trimmed output) as (l & t & _ & _ & _ & Hst & Hen).
    rewrite trim_idempotent. auto.
  - auto.
Qed.

Lemma result_actual_is_trimmed_witness :
  let host := node_host (fun _ _ => good_child) in
  let r :=
    {| TestResult.testName := "sample";
       TestResult.input := "9";
       TestResult.expected := "0 1" +:+ nl;
       TestResult.actual := "0 1";
       TestResult.passed := true;
       TestResult.error := None;
       TestResult.executionTime := 1006%N |} in
  (runSingleTest host two_sum_dir "javascript" "9" ("0 1" +:+ nl) "sample"
     two_sum_world).1 = Fulfilled r
  /\ TestResult.input r = "9"
  /\ TestResult.expected r = "0 1" +:+ nl
  /\ JS.trim (TestResult.actual r) = TestResult.actual r
  /\ starts_with_whitespace (TestResult.actual r) = false
  /\ ends_with_whitespace (TestResult.actual r) = false.
Proof.
  intros host r.
  assert ((runSingleTest host two_sum_dir "javascript" "9" ("0 1" +:+ nl)
             "sample" two_sum_world).1 = Fulfilled r) as Hrun
    by (vm_compute; reflexivity).
  split; [exact Hrun|].
  exact (result_actual_is_trimmed host two_sum_world two_sum_dir
           "javascript" "9" ("0 1" +:+ nl) "sample" r Hrun).
Defined.

(** ** Errors in the report *)

Lemma listen_rejection_truthy (events : list (N * ChildEvent)) :
  forall st : Listener,
    (forall m, settled st = Rejected m -> JS.truthy m = true) ->
    forall m,
      settled (fold_left on_event events st) = Rejected m ->
      JS.truthy m = true.
Proof.
  induction events as [|[d e] events IH]; intros st Hst; [exact Hst|].
  simpl fold_left. apply IH.
  intros m. unfold on_event. destruct e; simpl; try exact (Hst m).
  - destruct (settled st) eqn:E; simpl; try exact (Hst m).
    destruct (code_nonzero code); [|discriminate].
    intros [= <-]. reflexivity.
  - destruct (settled st) eqn:E; simpl; try exact (Hst m).
    intros [= <-]. reflexivity.
Qed.

(** [X14]: The error of a failed execution reaches the report: unless [spawn]
    itself throws an error whose message is empty, the detail of a result
    carries the same error as the result, so no error is dropped by the
    truthiness test of [generateDiffReport]. *)
Theorem report_keeps_the_error (host : Host) (w : World)
    (problemDir language input expected testName : string)
    (r : TestResult.t) :
  (forall n request, spawn host n request <> SpawnThrows "") ->
  (runSingleTest host problemDir language input expected testName w).1
  = Fulfilled r ->
  Detail.error (detail_of r) = TestResult.error r.
Proof.
  intros Hthrow. rewrite runSingleTest_cases.
  destruct (executeCode _ _ _ _ w) as [[output|m|] w1] eqn:E; simpl;
    [| |discriminate]; intros [= <-]; [reflexivity|].
  unfold detail_of, copy_error. simpl.
  assert (JS.truthy m = true) as ->; [|reflexivity].
  revert E. unfold executeCode.
  destruct (launch host _ language) as [[command args]|];
    [|intros [= <- _]; reflexivity].
  match goal with |- context [spawn host ?n ?req] =>
    specialize (Hthrow n req); destruct (spawn host n req) as [m'|events]
  end.
  - intros [= <- _]. destruct m'; [congruence|reflexivity].
  - intros [= Hs _]. revert Hs. unfold listen.
    apply listen_rejection_truthy. simpl. discriminate.
Qed.

Lemma report_keeps_the_error_witness :
  let host := node_host (fun _ _ => Child crashing_events) in
  let r :=
    {| TestResult.testName := "sample";
       TestResult.input := "9";
       TestResult.expected := "0 1";
       TestResult.actual := "";
       TestResult.passed := false;
       TestResult.error := Some "Execution failed with code 1: boom";
       TestResult.executionTime := 1006%N |} in
  (forall n request, spawn host n request <> SpawnThrows "")
  /\ (runSingleTest host two_sum_dir "javascript" "9" "0 1" "sample"
        two_sum_world).1 = Fulfilled r
  /\ Detail.error (detail_of r) = Some "Execution failed with code 1: boom".
Proof.
  intros host r.
  assert (forall n request, spawn host n request <> SpawnThrows "") as Hthrow
    by (intros n request; discriminate).
  assert ((runSingleTest host two_sum_dir "javascript" "9" "0 1" "sample"
             two_sum_world).1 = Fulfilled r) as Hrun
    by (vm_compute; reflexivity).
  split; [exact Hthrow|]. split; [exact Hrun|].
  exact (report_keeps_the_error host two_sum_world two_sum_dir "javascript"
           "9" "0 1" "sample" r Hthrow Hrun).
Defined.
